(** * simple-http-server: request decoding and presentation

    A shallow embedding of the Go sources: the configuration (port
    validation), [request.go] (snapshot construction and report rendering)
    and [main.go] (the HTTP handler), with the properties of the
    specification proved or refuted on it.

    Conventions.
    - Go [string] is a byte string: Rocq [string] (a list of 8-bit [ascii]).
    - Go [[]byte] is [list Byte.byte]; [string(b)] is [string_of_list_byte].
    - Go [int], [int64] are [Z]; the one place where the source can leave the
      64-bit range ([int64(x) << 20]) has its wrap-around written out.
    - Go [map[string]T] is [gmap string T]; where the source distinguishes a
      nil map from an empty one ([!= nil]) the field is an [option].
    - [for k, v := range m] visits the entries of a map in an order the Go
      runtime chooses afresh at every loop; a printing function therefore
      denotes the list of all traces it can write ([Beh]).
    - [fmt.Print*] writes to standard output, [log.Print*] to the logger;
      both are recorded, in order, as [Out] events, a logger call by its
      message (without the date and time the logger puts in front). *)

From Stdlib Require Import ZArith String Ascii List DecimalString Lia.
From stdpp Require Import gmap strings list fin_maps.

Local Open Scope Z_scope.

(* ===================================================================== *)
(** * Go strings and formatting *)
(* ===================================================================== *)

Module strings.

(** The two control characters the format strings of the source use. *)
Definition nl : string := String (ascii_of_nat 10) "".
Definition tab : string := String (ascii_of_nat 9) "".

(** The double quote, as a byte and as a string. *)
Definition dq : ascii := ascii_of_nat 34.
Definition quote : string := String dq "".

(** [strings.HasPrefix(s, prefix)]:
    [len(s) >= len(prefix) && s[:len(prefix)] == prefix]. *)
Definition HasPrefix (s prefix : string) : bool :=
  (String.length prefix <=? String.length s)%nat
  && String.eqb (substring 0 (String.length prefix) s) prefix.

(** [strings.Index(s, substr)]: the index of the first occurrence of
    [substr] in [s], or -1. [IndexFrom i s substr] scans [s], whose first
    byte has index [i] in the original string. *)
Fixpoint IndexFrom (i : Z) (s substr : string) : Z :=
  if HasPrefix s substr then i
  else match s with
       | EmptyString => -1
       | String _ s' => IndexFrom (i + 1) s' substr
       end.

Definition Index (s substr : string) : Z := IndexFrom 0 s substr.

(** [strings.Contains(s, substr)]: [Index(s, substr) >= 0]. *)
Definition Contains (s substr : string) : bool := 0 <=? Index s substr.

(** [strings.Cut(s, sep)]: [s] around the first occurrence of [sep]. *)
Definition Cut (s sep : string) : string * string * bool :=
  let i := Index s sep in
  if 0 <=? i then
    (substring 0 (Z.to_nat i) s,
     substring (Z.to_nat i + String.length sep)
               (String.length s - (Z.to_nat i + String.length sep)) s,
     true)
  else (s, "", false).

(** [strings.Join(elems, sep)]. *)
Fixpoint Join (elems : list string) (sep : string) : string :=
  match elems with
  | [] => ""
  | [e] => e
  | e :: es => e +:+ sep +:+ Join es sep
  end.

End strings.

Module fmt.
Import strings.

(** The verb [%d] on an integer. *)
Definition d (z : Z) : string := NilZero.string_of_int (Z.to_int z).

(** The verb [%s] on a [[]string]: the elements between brackets,
    separated by one space. *)
Definition s_slice (l : list string) : string := "[" +:+ Join l " " +:+ "]".

(** [float64(n)] for an [int64] [n]: the nearest number with a 53-bit
    significand, ties to even. The result is still an integer, so it is
    returned as a [Z]. *)
Definition float64_of_int (n : Z) : Z :=
  let a := Z.abs n in
  let e := Z.log2 a - 52 in
  if e <=? 0 then n
  else
    let q := Z.shiftr a e in
    let r := a - Z.shiftl q e in
    let half := Z.shiftl 1 (e - 1) in
    let q' := if (half <? r) || ((half =? r) && Z.odd q) then q + 1 else q in
    Z.sgn n * Z.shiftl q' e.

(** [fmt.Sprintf("%.2f", x/1024/1024)] for [x = float64(n)]. The two
    divisions by a power of two are exact in binary floating point (the
    exponent stays far from the subnormal range), so the value formatted
    is the rational [x / 2^20]; [%.2f] rounds its exact decimal expansion
    to two digits, ties to even, and keeps the sign of [x]. *)
Definition f2_MB (x : Z) : string :=
  let a := Z.abs x * 100 in
  let q := a / 1048576 in
  let r := a mod 1048576 in
  let h := if (524288 <? r) || ((524288 =? r) && Z.odd q) then q + 1 else q in
  let frac := h mod 100 in
  (if x <? 0 then "-" else "") +:+ d (h / 100) +:+ "." +:+
  (if frac <? 10 then "0" else "") +:+ d frac.

End fmt.

(* ===================================================================== *)
(** * Media type constants ([github.com/ldez/mimetype]) *)
(* ===================================================================== *)

Module mimetype.
Definition ApplicationXWwwFormUrlencoded : string :=
  "application/x-www-form-urlencoded".
Definition MultipartFormData : string := "multipart/form-data".
End mimetype.

(* ===================================================================== *)
(** * Configuration *)
(* ===================================================================== *)

Definition portMinValue : Z := 1024.
Definition portMaxValue : Z := 65535.
Definition portDefaultValue : Z := 3000.

Record Config := {
  Port : Z;
  ShouldFormatJson : bool;
  IsHelpRequested : bool;
  MaxFormBodySizeInMB : Z
}.

(** [isPortInValidRange]: both comparisons are strict. *)
Definition isPortInValidRange (port min max : Z) : bool :=
  (min <? port) && (port <? max).

(** [uint64(port)] on a 64-bit [int]. *)
Definition uint64 (z : Z) : Z := z mod 2 ^ 64.

(** How a call ends: it returns a value, or it panics with the text of
    the error it panics with. *)
Inductive Run (A : Type) :=
| Returns (a : A)
| Panics (msg : string).
Arguments Returns {A} a.
Arguments Panics {A} msg.

(** What the operating system answers to [net.Listen("tcp", addr)] is
    not a function of the program: either an error, or a listener,
    given here with the answer its [Close] will give. *)
Inductive ListenResult :=
| ListenError (err : string)
| Listener (closeErr : option string).

(** [isPortAvailable]: [listen] is the answer of the operating system
    for an address string [":<port>"]. A listener that cannot be closed
    makes the function panic. *)
Definition isPortAvailable (listen : string -> ListenResult) (port : Z)
  : Run bool :=
  let portStr := fmt.d (uint64 port) in
  match listen (":" +:+ portStr) with
  | ListenError _ => Returns false
  | Listener (Some err) => Panics ("failed to close port listener: " +:+ err)
  | Listener None => Returns true
  end.

(** [Config.Validate]: [None] is Go's [nil] error. *)
Definition Validate (listen : string -> ListenResult) (c : Config)
  : Run (option string) :=
  if negb (isPortInValidRange (Port c) portMinValue portMaxValue) then
    Returns (Some ("expecting port to be in the range between "
                   +:+ fmt.d portMinValue +:+ " and " +:+ fmt.d portMaxValue))
  else
    match isPortAvailable listen (Port c) with
    | Panics msg => Panics msg
    | Returns false =>
        Returns (Some ("can't listen on " +:+ fmt.d (Port c)
                       +:+ ", port already in use"))
    | Returns true => Returns None
    end.

(* ===================================================================== *)
(** * The Go standard library, as far as the sources call it *)
(* ===================================================================== *)

(** [url.Values], [http.Header], [textproto.MIMEHeader]. *)
Abbreviation Values := (gmap string (list string)).

Module multipart.

(** [multipart.FileHeader]: one file part of a multipart form. *)
Record FileHeader := {
  Filename : string;
  Header : Values;
  Size : Z
}.

(** [multipart.Form]. *)
Record Form := {
  Value : Values;
  File : gmap string (list FileHeader)
}.

End multipart.

(** The parsers of the standard library that the sources reach. The
    properties below hold whatever these functions compute; [RefLib]
    further down gives them values so that examples can be evaluated.
    An error result is the text of the Go error. *)
Class StdLib := {
  (** [json.Valid(b)] *)
  json_Valid : list Byte.byte -> bool;
  (** [json.Indent(&dst, b, prefix, indent)]: the text written to [dst],
      or the error. *)
  json_Indent : list Byte.byte -> string -> string -> string + string;
  (** [url.ParseQuery(s)]: the values parsed (never nil) and the first
      error met. *)
  url_ParseQuery : string -> Values * option string;
  (** [mime.ParseMediaType(v)]: media type, parameters, error. *)
  mime_ParseMediaType : string -> string * gmap string string * option string;
  (** [multipart.NewReader(body, boundary).ReadForm(maxMemory)] on the
      bytes of the body. *)
  multipart_ReadForm : string -> Z -> list Byte.byte -> multipart.Form + string;
  (** [parseBasicAuth(auth)] of [net/http]: user name and password of a
      well-formed [Basic] credential. *)
  http_parseBasicAuth : string -> option (string * string)
}.

Module http.

Definition StatusAccepted : Z := 202.
Definition StatusInternalServerError : Z := 500.

Definition ErrBodyReadAfterClose : string := "http: invalid Read on closed Body".
Definition ErrNotMultipart : string :=
  "request Content-Type isn't multipart/form-data".
Definition ErrMissingBoundary : string :=
  "no multipart boundary param in Content-Type".

(** The body of an inbound request, an [io.ReadCloser]. [NoBody] is the
    body of a request without one: it reads as empty and closing it does
    nothing. Otherwise the stream holds the bytes not read yet, the I/O
    error the connection will report once they are delivered (if any),
    whether it has been closed, and the error its [Close] reports. *)
Inductive ReadCloser :=
| NoBody
| body (unread : list Byte.byte) (fail : option string) (closed : bool)
       (closeErr : option string).

(** Whether [Close] has been called on the stream. *)
Definition isClosed (rc : ReadCloser) : bool :=
  match rc with
  | NoBody => false
  | body _ _ c _ => c
  end.

(** [io.ErrUnexpectedEOF], the error of a body that ends before its
    [Content-Length]. *)
Definition ErrUnexpectedEOF : string := "unexpected EOF".

(** What the stream reports to the reads after a failed one. A body that
    ended early has seen its end ([sawEOF] of [net/http]'s body) and reads
    as empty from then on; any other error is the connection's, which the
    next read meets again. *)
Definition afterFailure (fail : option string) : option string :=
  match fail with
  | Some err => if String.eqb err ErrUnexpectedEOF then None else Some err
  | None => None
  end.

(** [io.ReadAll(io.LimitReader(rc, n))]: the bytes read, the error, the
    stream afterwards. *)
Definition ReadAtMost (n : Z) (rc : ReadCloser)
  : list Byte.byte * option string * ReadCloser :=
  match rc with
  | NoBody => ([], None, NoBody)
  | body d f true ce => ([], Some ErrBodyReadAfterClose, rc)
  | body d f false ce =>
      if n <=? Z.of_nat (length d)
      then (take (Z.to_nat n) d, None, body (drop (Z.to_nat n) d) f false ce)
      else (d, f, body [] (afterFailure f) false ce)
  end.

(** [io.ReadAll(rc)]. *)
Definition ReadAll (rc : ReadCloser)
  : list Byte.byte * option string * ReadCloser :=
  match rc with
  | NoBody => ([], None, NoBody)
  | body d f true ce => ([], Some ErrBodyReadAfterClose, rc)
  | body d f false ce => (d, f, body [] (afterFailure f) false ce)
  end.

(** [rc.Close()]. *)
Definition Close (rc : ReadCloser) : option string * ReadCloser :=
  match rc with
  | NoBody => (None, NoBody)
  | body d f true ce => (None, rc)
  | body d f false ce => (ce, body d f true ce)
  end.

(** [http.Request], the fields the sources read and the parsers write.
    [PostForm], [Form] and [MultipartForm] are nil ([None]) until a
    parser fills them. *)
Record Request := {
  Method : string;
  URL_Path : string;
  URL_RawQuery : string;
  RequestURI : string;
  Proto : string;
  Host : string;
  RemoteAddr : string;
  ContentLength : Z;
  Header : Values;
  Body : ReadCloser;
  PostForm : option Values;
  Form : option Values;
  MultipartForm : option multipart.Form
}.

Definition set_Body (rc : ReadCloser) (r : Request) : Request :=
  {| Method := Method r; URL_Path := URL_Path r;
     URL_RawQuery := URL_RawQuery r; RequestURI := RequestURI r;
     Proto := Proto r; Host := Host r; RemoteAddr := RemoteAddr r;
     ContentLength := ContentLength r; Header := Header r; Body := rc;
     PostForm := PostForm r; Form := Form r;
     MultipartForm := MultipartForm r |}.

Definition set_forms (pf f : option Values) (mf : option multipart.Form)
           (r : Request) : Request :=
  {| Method := Method r; URL_Path := URL_Path r;
     URL_RawQuery := URL_RawQuery r; RequestURI := RequestURI r;
     Proto := Proto r; Host := Host r; RemoteAddr := RemoteAddr r;
     ContentLength := ContentLength r; Header := Header r; Body := Body r;
     PostForm := pf; Form := f; MultipartForm := mf |}.

(** A request as the server hands it to a handler: nothing parsed yet. *)
Definition inbound (r : Request) : Prop :=
  PostForm r = None /\ Form r = None /\ MultipartForm r = None.

(** [h.Get(key)] for a key already in canonical form, as both keys of
    the sources are: the first value, or the empty string. *)
Definition Header_Get (h : Values) (key : string) : string :=
  match h !! key with
  | Some (v :: _) => v
  | _ => ""
  end.

(** [firstErr a b]: Go's [if err == nil { err = e }]. *)
Definition firstErr (a b : option string) : option string :=
  match a with Some _ => a | None => b end.

(** [copyValues(dst, src)] and the loops of [ParseMultipartForm]:
    [dst[k] = append(dst[k], vs...)] for every key of [src]. *)
Definition copyValues (dst src : Values) : Values :=
  union_with (fun a b => Some (a ++ b)) dst src.

Section WithLib.
Context {L : StdLib}.

(** [r.BasicAuth()]. *)
Definition BasicAuth (r : Request) : string * string * bool :=
  let auth := Header_Get (Header r) "Authorization" in
  if String.eqb auth "" then ("", "", false)
  else match http_parseBasicAuth auth with
       | Some (u, p) => (u, p, true)
       | None => ("", "", false)
       end.

(** [r.URL.Query()]: [ParseQuery] with its error dropped. *)
Definition URL_Query (r : Request) : Values :=
  fst (url_ParseQuery (URL_RawQuery r)).

(** [parsePostForm(r)]: the values (nil for a body that is not a
    URL-encoded form), the error, and the body stream afterwards. *)
Definition parsePostForm (r : Request)
  : option Values * option string * ReadCloser :=
  let ct := Header_Get (Header r) "Content-Type" in
  let ct := if String.eqb ct "" then "application/octet-stream" else ct in
  let '(ct, _, err) := mime_ParseMediaType ct in
  if String.eqb ct "application/x-www-form-urlencoded" then
    let maxFormSize := Z.shiftl 10 20 in
    let '(b, e, rc) := ReadAtMost (maxFormSize + 1) (Body r) in
    match e with
    | Some _ => (None, firstErr err e, rc)
    | None =>
        if maxFormSize <? Z.of_nat (length b)
        then (None, Some "http: POST too large", rc)
        else let '(vs, e) := url_ParseQuery (string_of_list_byte b) in
             (Some vs, firstErr err e, rc)
    end
  else (None, err, Body r).

(** [r.ParseForm()]. *)
Definition ParseForm (r : Request) : option string * Request :=
  let '(err, r) :=
    match PostForm r with
    | Some _ => (None, r)
    | None =>
        let '(pf, err, rc) :=
          if String.eqb (Method r) "POST" || String.eqb (Method r) "PUT"
             || String.eqb (Method r) "PATCH"
          then parsePostForm r
          else (None, None, Body r) in
        let pf := match pf with Some v => v | None => ∅ end in
        (err, set_forms (Some pf) (Form r) (MultipartForm r) (set_Body rc r))
    end in
  match Form r with
  | Some _ => (err, r)
  | None =>
      let pf := default ∅ (PostForm r) in
      let '(newValues, e) := url_ParseQuery (URL_RawQuery r) in
      let f := if (0 <? Z.of_nat (size pf)) then copyValues pf newValues
               else newValues in
      (firstErr err e, set_forms (PostForm r) (Some f) (MultipartForm r) r)
  end.

(** [r.multipartReader(false)]: the boundary, or the error. *)
Definition multipartReader (r : Request) : string + string :=
  let v := Header_Get (Header r) "Content-Type" in
  if String.eqb v "" then inr ErrNotMultipart
  else
    let '(d, params, err) := mime_ParseMediaType v in
    if bool_decide (err <> None) || negb (String.eqb d "multipart/form-data")
    then inr ErrNotMultipart
    else match params !! "boundary" with
         | None => inr ErrMissingBoundary
         | Some boundary => inl boundary
         end.

(** [r.ParseMultipartForm(maxMemory)]. *)
Definition ParseMultipartForm (maxMemory : Z) (r : Request)
  : option string * Request :=
  let '(parseFormErr, r) :=
    match Form r with
    | None => ParseForm r
    | Some _ => (None, r)
    end in
  match MultipartForm r with
  | Some _ => (None, r)
  | None =>
      match multipartReader r with
      | inr err => (Some err, r)
      | inl boundary =>
          let '(b, e, rc) := ReadAll (Body r) in
          let r := set_Body rc r in
          match e with
          | Some err => (Some err, r)
          | None =>
              match multipart_ReadForm boundary maxMemory b with
              | inr err => (Some err, r)
              | inl f =>
                  let pf := default ∅ (PostForm r) in
                  let fm := default ∅ (Form r) in
                  (parseFormErr,
                   set_forms (Some (copyValues pf (multipart.Value f)))
                             (Some (copyValues fm (multipart.Value f)))
                             (Some f) r)
              end
          end
      end
  end.

End WithLib.

End http.

(* ===================================================================== *)
(** * Output: traces and behaviours *)
(* ===================================================================== *)

(** One write: [Stdout s] is the text [s] written to standard output by
    [fmt]; [Logged s] is a call of the logger with the message [s]. The
    logger writes the message after the date and time of the call, which
    are not part of the model: what is said here about logged output is
    said about messages, and what is said about output byte for byte is
    said about standard output. *)
Inductive Out :=
| Stdout (s : string)
| Logged (s : string).

Definition Trace := list Out.

(** The traces a printing function can produce; they differ only in the
    order in which the maps were ranged over. *)
Definition Beh := list Trace.

Definition emit (o : Out) : Beh := [[o]].
Definition skip : Beh := [[]].

(** Sequential composition: any trace of [a] followed by any trace of [b]. *)
Definition seq (a b : Beh) : Beh := t1 ← a; t2 ← b; mret (t1 ++ t2).
Declare Scope beh_scope.
Delimit Scope beh_scope with beh.
Notation "a ;; b" := (seq a b)
  (at level 100, b at level 200, right associativity) : beh_scope.
Local Open Scope beh_scope.

(** The body [f] run on the elements of a slice, in order. *)
Definition for_each {A} (f : A -> Beh) (l : list A) : Beh :=
  foldr (fun x rest => f x ;; rest) skip l.

(** [range m]: the orders in which one [for k, v := range m] can visit the
    entries of the map [m]. *)
Definition range {V} (m : gmap string V) : list (list (string * V)) :=
  permutations (map_to_list m).

(** What was written to standard output: write by write, and as one text. *)
Definition stdout_lines (t : Trace) : list string :=
  omap (fun o => match o with Stdout s => Some s | Logged _ => None end) t.

Definition stdout (t : Trace) : string := foldr String.append "" (stdout_lines t).

(** [fmt.Println(a)] and [fmt.Println(a, b)]: operands separated by a
    space, a newline at the end. *)
Definition Println (a : string) : Beh := emit (Stdout (a +:+ strings.nl)).
Definition Println2 (a b : string) : Beh :=
  emit (Stdout (a +:+ " " +:+ b +:+ strings.nl)).

(* ===================================================================== *)
(** * request.go *)
(* ===================================================================== *)

Record basicAuth := {
  username : string;
  password : string;
  ok : bool
}.

(** The snapshot. [BasicAuth] is a pointer in the source; [NewRequest],
    the only constructor, never leaves it nil. *)
Record Request := {
  Method : string;
  Path : string;
  RequestUri : string;
  Protocol : string;
  Host : string;
  RemoteAddress : string;
  ContentLength : Z;
  ContentType : string;
  Headers : Values;
  QueryParams : Values;
  BasicAuth : basicAuth;
  BodyIsString : bool;
  BodyParseError : option string;
  Body : list Byte.byte;
  BodyFormValues : option Values;
  BodyMultipartFormValues : option multipart.Form
}.

Definition isStringContentType (contentType : string) : bool :=
  if strings.HasPrefix contentType "text/" then true
  else if strings.Contains contentType "json" then true
  else if strings.Contains contentType "xml" then true
  else if String.eqb contentType mimetype.ApplicationXWwwFormUrlencoded then true
  else false.

(** [fmt.Printf("\t%s: %s\n", key, value)] *)
Definition map_line (key value : string) : Out :=
  Stdout (strings.tab +:+ key +:+ ": " +:+ value +:+ strings.nl).

Definition printStrMap (m : gmap string string) : Beh :=
  kvs ← range m;
  for_each (fun kv => emit (map_line kv.1 kv.2)) kvs.

Definition printStrSliceMap (m : Values) : Beh :=
  kvs ← range m;
  for_each (fun kv => for_each (fun value => emit (map_line kv.1 value)) kv.2) kvs.

Definition printBytes (bytes : list Byte.byte) : Beh :=
  Println (string_of_list_byte bytes).

Definition printHeaders (r : Request) : Beh :=
  if (0 <? Z.of_nat (size (Headers r))) then
    Println "Headers:" ;; printStrSliceMap (Headers r)
  else skip.

Definition printAuth (r : Request) : Beh :=
  if ok (BasicAuth r) then
    let auth : gmap string string :=
      <["password" := password (BasicAuth r)]>
        (<["username" := username (BasicAuth r)]>
           (<["type" := "Basic"]> ∅)) in
    Println "Authorization:" ;; printStrMap auth
  else skip.

Definition printQueryParams (r : Request) : Beh :=
  if (0 <? Z.of_nat (size (QueryParams r))) then
    Println "Query params:" ;; printStrSliceMap (QueryParams r)
  else skip.

(** The loop body of [printBody] over the file parts of one field:
    [value.Filename (size MB)], then the part's header values. *)
Definition printFilePart (value : multipart.FileHeader) : Beh :=
  emit (Stdout (strings.tab +:+ strings.tab +:+ multipart.Filename value +:+ " ("
                +:+ fmt.f2_MB (fmt.float64_of_int (multipart.Size value))
                +:+ " MB)" +:+ strings.nl)) ;;
  if negb (Z.of_nat (size (multipart.Header value)) =? 0) then
    Println (strings.tab +:+ strings.tab +:+ "Headers:") ;;
    (hs ← range (multipart.Header value);
     for_each (fun kv => emit (Stdout (strings.tab +:+ strings.tab +:+ strings.tab
                                       +:+ fmt.s_slice kv.2 +:+ strings.nl))) hs)
  else skip.

Definition printFiles (files : gmap string (list multipart.FileHeader)) : Beh :=
  kvs ← range files;
  for_each (fun kv =>
              emit (Stdout (strings.tab +:+ kv.1 +:+ ":" +:+ strings.nl)) ;;
              for_each printFilePart kv.2) kvs.

Section WithCfg.
Context {L : StdLib}.
(** The global [Cfg] of main.go. *)
Variable Cfg : Config.

(** [printJsonIndented]: the error returned and what was printed. *)
Definition printJsonIndented (b : list Byte.byte) : option string * Trace :=
  let prefix := "" in
  let indent := "  " in
  if negb (json_Valid b) then (Some "invalid json", [])
  else match json_Indent b prefix indent with
       | inr err => (Some err, [])
       | inl jsonStr => (None, [Stdout (jsonStr +:+ strings.nl)])
       end.

Definition printBody (r : Request) : Beh :=
  if Z.of_nat (length (Body r)) =? 0 then skip
  else if BodyIsString r then
    if strings.Contains (ContentType r) "json" then
      if json_Valid (Body r) then
        Println "Body (valid json):" ;;
        if ShouldFormatJson Cfg then
          let '(err, t) := printJsonIndented (Body r) in
          [t] ;;
          match err with
          | Some e =>
              emit (Logged ("error indenting json body: " +:+ e +:+ strings.nl)) ;;
              printBytes (Body r)
          | None => skip
          end
        else skip
      else
        Println "Body (invalid json):" ;; printBytes (Body r)
    else
      Println "Body:" ;; printBytes (Body r)
  else match BodyFormValues r with
  | Some formValues =>
      Println "Body (Form values):" ;; printStrSliceMap formValues
  | None =>
  match BodyMultipartFormValues r with
  | Some form =>
      Println "Body (Multipart form values):" ;;
      printStrSliceMap (multipart.Value form) ;;
      printFiles (multipart.File form)
  | None =>
      emit (Stdout ("Body (unknown): lenght "
                    +:+ fmt.d (Z.of_nat (length (Body r))) +:+ " bytes"
                    +:+ strings.nl))
  end end.

Definition delimiter : string := "-------------------------".

Definition Print (r : Request) : Beh :=
  emit (Logged (Method r +:+ " " +:+ Path r +:+ " " +:+ Protocol r +:+ strings.nl)) ;;
  (if negb (String.eqb (Path r) (RequestUri r))
   then Println2 "Request URI:" (RequestUri r) else skip) ;;
  Println2 "Host:" (Host r) ;;
  Println2 "Remote Address:" (RemoteAddress r) ;;
  printAuth r ;;
  printHeaders r ;;
  printQueryParams r ;;
  printBody r ;;
  Println delimiter.

(** [readBodyAsBytes]: the bytes (nil on error), the error, the stream
    afterwards, and what the deferred [Close] logged. *)
Definition readBodyAsBytes (body : http.ReadCloser)
  : list Byte.byte * option string * http.ReadCloser * Trace :=
  let '(b, err, body) := http.ReadAll body in
  match err with
  | Some e => ([], Some ("error reading request body: " +:+ e), body, [])
  | None =>
      let '(cerr, body) := http.Close body in
      (b, None, body,
       match cerr with
       | Some e => [Logged ("error closing request body: " +:+ e +:+ strings.nl)]
       | None => []
       end)
  end.

(** [int64(x) << 20] on 64-bit two's complement. *)
Definition shl20_int64 (x : Z) : Z :=
  (Z.shiftl x 20 + 2 ^ 63) mod 2 ^ 64 - 2 ^ 63.

(** [NewRequest]: the snapshot pointer and the error returned, and what
    was logged on the way. *)
Definition NewRequest (r : http.Request)
  : option Request * option string * Trace :=
  let method := if String.eqb (http.Method r) "" then "GET" else http.Method r in
  let '(username, password, ok) := http.BasicAuth r in
  let auth := {| username := username; password := password; ok := ok |} in
  let contentType := http.Header_Get (http.Header r) "Content-Type" in
  let bodyIsString := isStringContentType contentType in
  let '(body, bodyParseError, r, logged) :=
    if isStringContentType contentType then
      let '(b, e, rc, t) := readBodyAsBytes (http.Body r) in
      (b, e, http.set_Body rc r, t)
    else ([], None, r, []) in
  let '(bodyParseError, bodyFormValues, r) :=
    if String.eqb contentType mimetype.ApplicationXWwwFormUrlencoded then
      let '(e, r) := http.ParseForm r in
      match e with
      | None => (None, http.Form r, r)
      | Some e => (Some ("error parsing form values: " +:+ e), None, r)
      end
    else if String.eqb contentType mimetype.MultipartFormData then
      let '(e, r) :=
        http.ParseMultipartForm (shl20_int64 (MaxFormBodySizeInMB Cfg)) r in
      match e with
      | None => (None, None, r)
      | Some e =>
          (Some ("error parsing multipart form values: " +:+ e), None, r)
      end
    else (bodyParseError, None, r) in
  (Some {| Method := method;
           Path := http.URL_Path r;
           RequestUri := http.RequestURI r;
           Protocol := http.Proto r;
           Host := http.Host r;
           RemoteAddress := http.RemoteAddr r;
           ContentLength := http.ContentLength r;
           ContentType := contentType;
           Headers := http.Header r;
           QueryParams := http.URL_Query r;
           BasicAuth := auth;
           BodyIsString := bodyIsString;
           BodyParseError := bodyParseError;
           Body := body;
           BodyFormValues := bodyFormValues;
           BodyMultipartFormValues := http.MultipartForm r |},
   None, logged).

(* =================================================================== *)
(** * main.go: the handler *)
(* =================================================================== *)

(** The [http.ResponseWriter]: the status line sent, once one is. *)
Record ResponseWriter := { status : option Z }.

(** [w.WriteHeader(code)]: the first call sends the status; a later call
    changes nothing and is reported on the server's log. *)
Definition WriteHeader (code : Z) (w : ResponseWriter) : ResponseWriter * Trace :=
  match status w with
  | None => ({| status := Some code |}, [])
  | Some _ =>
      (w, [Logged ("http: superfluous response.WriteHeader call" +:+ strings.nl)])
  end.

(** The function registered for ["/"] by [runHttpServer]: every trace it
    can leave, with the response writer at its end. *)
Definition handler (w : ResponseWriter) (r : http.Request)
  : list (Trace * ResponseWriter) :=
  let '(req, err, t0) := NewRequest r in
  let '(w, t1) :=
    match err with
    | Some e =>
        let '(w, t) := WriteHeader http.StatusInternalServerError w in
        (w, t ++ [Logged (e +:+ strings.nl)])
    | None => (w, [])
    end in
  tp ← match req with Some req => Print req | None => skip end;
  let '(w, t2) := WriteHeader http.StatusAccepted w in
  mret (t0 ++ t1 ++ tp ++ t2, w).

End WithCfg.

(* ===================================================================== *)
(** * Reference values for the library parsers *)
(* ===================================================================== *)

(** The parsers of [StdLib] written out, following the Go standard library,
    so that requests can be run through the handler by evaluation. *)
Module golib.
Import strings.

Definition code (c : ascii) : Z := Z.of_N (N_of_ascii c).
Definition chr (z : Z) : ascii := ascii_of_N (Z.to_N z).

Definition isSpace (c : ascii) : bool :=
  let n := code c in (n =? 32) || (n =? 9) || (n =? 13) || (n =? 10).
Definition isDigit (c : ascii) : bool := (48 <=? code c) && (code c <=? 57).
Definition isDigit19 (c : ascii) : bool := (49 <=? code c) && (code c <=? 57).

(** The value of a hexadecimal digit. *)
Definition unhex (c : ascii) : option Z :=
  let n := code c in
  if (48 <=? n) && (n <=? 57) then Some (n - 48)
  else if (97 <=? n) && (n <=? 102) then Some (n - 97 + 10)
  else if (65 <=? n) && (n <=? 70) then Some (n - 65 + 10)
  else None.

(** ** encoding/json: the scanner *)

(** Where the scanner stands: what it expects next, or the token it is
    in the middle of. *)
Inductive jmode :=
| JValue | JValueOrClose | JKeyOrClose | JKey | JColon | JEnd
| JStr (key : bool) | JStrEsc (key : bool) | JStrU (key : bool) (n : nat)
| JLit (rest : string)
| JNeg | JZero | JInt | JDot | JFrac | JE | JESign | JExp.

(** The scanner state: the mode and the stack of open composites
    ([true] for an object, [false] for an array). *)
Definition jstate : Type := jmode * list bool.

(** [maxNestingDepth] and [pushParseState]: opening a composite fails
    once more than 10000 are open. *)
Definition maxNestingDepth : Z := 10000.

Definition jpush (m : jmode) (obj : bool) (st : list bool) : option jstate :=
  if Z.of_nat (length (obj :: st)) <=? maxNestingDepth
  then Some (m, obj :: st) else None.

Definition jbegin (c : ascii) (st : list bool) : option jstate :=
  if isSpace c then Some (JValue, st)
  else if Ascii.eqb c "{" then jpush JKeyOrClose true st
  else if Ascii.eqb c "[" then jpush JValueOrClose false st
  else if Ascii.eqb c dq then Some (JStr false, st)
  else if Ascii.eqb c "-" then Some (JNeg, st)
  else if Ascii.eqb c "0" then Some (JZero, st)
  else if isDigit19 c then Some (JInt, st)
  else if Ascii.eqb c "t" then Some (JLit "rue", st)
  else if Ascii.eqb c "f" then Some (JLit "alse", st)
  else if Ascii.eqb c "n" then Some (JLit "ull", st)
  else None.

Definition jend (c : ascii) (st : list bool) : option jstate :=
  if isSpace c then Some (JEnd, st)
  else match st with
       | [] => None
       | true :: st' =>
           if Ascii.eqb c "," then Some (JKey, st)
           else if Ascii.eqb c "}" then Some (JEnd, st')
           else None
       | false :: st' =>
           if Ascii.eqb c "," then Some (JValue, st)
           else if Ascii.eqb c "]" then Some (JEnd, st')
           else None
       end.

Definition jstep (s : jstate) (c : ascii) : option jstate :=
  let '(m, st) := s in
  match m with
  | JValue => jbegin c st
  | JValueOrClose =>
      if isSpace c then Some (JValueOrClose, st)
      else if Ascii.eqb c "]" then Some (JEnd, tail st)
      else jbegin c st
  | JKeyOrClose =>
      if isSpace c then Some (JKeyOrClose, st)
      else if Ascii.eqb c "}" then Some (JEnd, tail st)
      else if Ascii.eqb c dq then Some (JStr true, st)
      else None
  | JKey =>
      if isSpace c then Some (JKey, st)
      else if Ascii.eqb c dq then Some (JStr true, st)
      else None
  | JColon =>
      if isSpace c then Some (JColon, st)
      else if Ascii.eqb c ":" then Some (JValue, st)
      else None
  | JEnd => jend c st
  | JStr k =>
      if Ascii.eqb c dq then Some (if k then JColon else JEnd, st)
      else if Ascii.eqb c "\" then Some (JStrEsc k, st)
      else if code c <? 32 then None
      else Some (JStr k, st)
  | JStrEsc k =>
      if Ascii.eqb c "u" then Some (JStrU k 4, st)
      else if existsb (Ascii.eqb c)
                (dq :: ["b"; "f"; "n"; "r"; "t"; "\"; "/"]%char)
      then Some (JStr k, st)
      else None
  | JStrU k n =>
      match unhex c with
      | None => None
      | Some _ => Some (match n with
                        | S (S n') => JStrU k (S n')
                        | _ => JStr k
                        end, st)
      end
  | JLit rest =>
      match rest with
      | String c' rest' =>
          if Ascii.eqb c c'
          then Some (match rest' with "" => JEnd | _ => JLit rest' end, st)
          else None
      | "" => None
      end
  | JNeg =>
      if Ascii.eqb c "0" then Some (JZero, st)
      else if isDigit19 c then Some (JInt, st)
      else None
  | JZero =>
      if Ascii.eqb c "." then Some (JDot, st)
      else if Ascii.eqb c "e" || Ascii.eqb c "E" then Some (JE, st)
      else jend c st
  | JInt =>
      if isDigit c then Some (JInt, st)
      else if Ascii.eqb c "." then Some (JDot, st)
      else if Ascii.eqb c "e" || Ascii.eqb c "E" then Some (JE, st)
      else jend c st
  | JDot => if isDigit c then Some (JFrac, st) else None
  | JFrac =>
      if isDigit c then Some (JFrac, st)
      else if Ascii.eqb c "e" || Ascii.eqb c "E" then Some (JE, st)
      else jend c st
  | JE =>
      if Ascii.eqb c "+" || Ascii.eqb c "-" then Some (JESign, st)
      else if isDigit c then Some (JExp, st)
      else None
  | JESign => if isDigit c then Some (JExp, st) else None
  | JExp => if isDigit c then Some (JExp, st) else jend c st
  end.

(** The scanner has read one complete value and nothing is open. *)
Definition jdone (s : jstate) : bool :=
  match s with
  | (JEnd, []) | (JZero, []) | (JInt, []) | (JFrac, []) | (JExp, []) => true
  | _ => false
  end.

Fixpoint jscan (s : jstate) (src : string) : option jstate :=
  match src with
  | "" => Some s
  | String c src' =>
      match jstep s c with
      | Some s' => jscan s' src'
      | None => None
      end
  end.

(** [json.Valid]. *)
Definition Valid (data : list Byte.byte) : bool :=
  match jscan (JValue, []) (string_of_list_byte data) with
  | Some s => jdone s
  | None => false
  end.

(** [json.Indent]: the bytes of [src] copied to [dst], white space
    between tokens dropped, a line break and [depth] indents put after
    every opening bracket and comma and before every closing bracket
    (an empty composite stays closed on the spot), a space after every
    colon. *)
Definition newline (prefix indent : string) (depth : nat) : string :=
  nl +:+ prefix +:+ foldr String.append "" (repeat indent depth).

Definition inString (m : jmode) : bool :=
  match m with JStr _ | JStrEsc _ | JStrU _ _ => true | _ => false end.

Fixpoint appendIndent (prefix indent : string) (s : jstate)
         (needIndent : bool) (depth : nat) (src dst : string) : option string :=
  match src with
  | "" => if jdone s then Some dst else None
  | String c src' =>
      match jstep s c with
      | None => None
      | Some s' =>
          let str := inString s.1 in
          if isSpace c && negb str && negb (jdone s) then
            appendIndent prefix indent s' needIndent depth src' dst
          else
            let closing := negb str && (Ascii.eqb c "}" || Ascii.eqb c "]") in
            let '(needIndent, depth, dst) :=
              if needIndent && negb closing
              then (false, S depth, dst +:+ newline prefix indent (S depth))
              else (needIndent, depth, dst) in
            let c1 := String c "" in
            if str then
              appendIndent prefix indent s' needIndent depth src' (dst +:+ c1)
            else if Ascii.eqb c "{" || Ascii.eqb c "[" then
              appendIndent prefix indent s' true depth src' (dst +:+ c1)
            else if Ascii.eqb c "," then
              appendIndent prefix indent s' needIndent depth src'
                           (dst +:+ c1 +:+ newline prefix indent depth)
            else if Ascii.eqb c ":" then
              appendIndent prefix indent s' needIndent depth src'
                           (dst +:+ c1 +:+ " ")
            else if closing then
              if needIndent then
                appendIndent prefix indent s' false depth src' (dst +:+ c1)
              else
                appendIndent prefix indent s' false (pred depth) src'
                  (dst +:+ newline prefix indent (pred depth) +:+ c1)
            else
              appendIndent prefix indent s' needIndent depth src' (dst +:+ c1)
      end
  end.

Definition Indent (src : list Byte.byte) (prefix indent : string)
  : string + string :=
  match appendIndent prefix indent (JValue, []) false 0
                     (string_of_list_byte src) "" with
  | Some dst => inl dst
  | None => inr "invalid character in JSON text"
  end.

(** ** net/url *)

(** The pieces of [s] between occurrences of the byte [sep]. *)
Fixpoint pieces (sep : ascii) (s : string) : list string :=
  match s with
  | "" => [""]
  | String c s' =>
      let r := pieces sep s' in
      if Ascii.eqb c sep then "" :: r
      else match r with
           | h :: t => String c h :: t
           | [] => [String c ""]
           end
  end.

(** [url.QueryUnescape]: [+] is a space, [%XX] the byte [XX]. *)
Fixpoint QueryUnescape (s : string) : string + string :=
  match s with
  | "" => inl ""
  | String c s' =>
      if Ascii.eqb c "%" then
        match s' with
        | String a (String b rest) =>
            match unhex a, unhex b with
            | Some x, Some y =>
                match QueryUnescape rest with
                | inl u => inl (String (chr (16 * x + y)) u)
                | inr e => inr e
                end
            | _, _ => inr ("invalid URL escape " +:+ quote +:+ substring 0 3 s +:+ quote)
            end
        | _ => inr ("invalid URL escape " +:+ quote +:+ substring 0 3 s +:+ quote)
        end
      else
        match QueryUnescape s' with
        | inl u => inl (String (if Ascii.eqb c "+" then " "%char else c) u)
        | inr e => inr e
        end
  end.

(** One turn of the loop of [parseQuery] on the piece [key]. *)
Definition parseQuery_step (acc : Values * option string) (key : string)
  : Values * option string :=
  let '(m, err) := acc in
  if Contains key ";" then (m, Some "invalid semicolon separator in query")
  else if String.eqb key "" then (m, err)
  else
    let '(key, value, _) := Cut key "=" in
    match QueryUnescape key with
    | inr err1 => (m, http.firstErr err (Some err1))
    | inl key =>
        match QueryUnescape value with
        | inr err1 => (m, http.firstErr err (Some err1))
        | inl value => (<[key := default [] (m !! key) ++ [value]]> m, err)
        end
    end.

(** [url.ParseQuery]. *)
Definition ParseQuery (query : string) : Values * option string :=
  foldl parseQuery_step (∅, None) (pieces "&" query).

(** ** encoding/base64 and [parseBasicAuth] *)

Definition sextet (c : ascii) : option Z :=
  let n := code c in
  if (65 <=? n) && (n <=? 90) then Some (n - 65)
  else if (97 <=? n) && (n <=? 122) then Some (n - 97 + 26)
  else if (48 <=? n) && (n <=? 57) then Some (n - 48 + 52)
  else if n =? 43 then Some 62
  else if n =? 47 then Some 63
  else None.

(** [base64.StdEncoding.DecodeString] on input without line breaks. *)
Fixpoint b64decode (s : string) : option string :=
  match s with
  | "" => Some ""
  | String a (String b (String c (String d rest))) =>
      match sextet a, sextet b with
      | Some x, Some y =>
          let b1 := chr (x * 4 + y / 16) in
          if Ascii.eqb c "=" then
            if Ascii.eqb d "=" && String.eqb rest ""
            then Some (String b1 "") else None
          else match sextet c with
          | None => None
          | Some z =>
              let b2 := chr ((y mod 16) * 16 + z / 4) in
              if Ascii.eqb d "=" then
                if String.eqb rest "" then Some (String b1 (String b2 ""))
                else None
              else match sextet d with
              | None => None
              | Some w =>
                  let b3 := chr ((z mod 4) * 64 + w) in
                  match b64decode rest with
                  | Some r => Some (String b1 (String b2 (String b3 r)))
                  | None => None
                  end
              end
          end
      | _, _ => None
      end
  | _ => None
  end.

(** ASCII lower case, as [ascii.EqualFold] and the media type parser
    use it. *)
Definition lower (c : ascii) : ascii :=
  if (65 <=? code c) && (code c <=? 90) then chr (code c + 32) else c.

Fixpoint ToLower (s : string) : string :=
  match s with
  | "" => ""
  | String c s' => String (lower c) (ToLower s')
  end.

Definition parseBasicAuth (auth : string) : option (string * string) :=
  let prefix := "Basic " in
  if (String.length auth <? String.length prefix)%nat
     || negb (String.eqb (ToLower (substring 0 (String.length prefix) auth))
                         (ToLower prefix))
  then None
  else
    match b64decode (substring (String.length prefix)
                               (String.length auth - String.length prefix) auth) with
    | None => None
    | Some cs =>
        let '(username, password, ok) := Cut cs ":" in
        if ok then Some (username, password) else None
    end.

(** ** mime: media types *)

Definition isTSpecial (c : ascii) : bool :=
  existsb (Ascii.eqb c)
    (dq :: ["("; ")"; "<"; ">"; "@"; ","; ";"; ":"; "\"; "/"; "["; "]"; "?"; "="]%char).

Definition isTokenChar (c : ascii) : bool :=
  (32 <? code c) && (code c <? 127) && negb (isTSpecial c).

(** [consumeToken]: the longest prefix of token characters, and the rest. *)
Fixpoint consumeToken (v : string) : string * string :=
  match v with
  | "" => ("", "")
  | String c v' =>
      if isTokenChar c
      then let '(t, rest) := consumeToken v' in (String c t, rest)
      else ("", v)
  end.

Fixpoint trimLeft (v : string) : string :=
  match v with
  | String c v' => if isSpace c then trimLeft v' else v
  | "" => ""
  end.

Fixpoint trimRight (v : string) : string :=
  match v with
  | "" => ""
  | String c v' =>
      match trimRight v' with
      | "" => if isSpace c then "" else String c ""
      | t => String c t
      end
  end.

Definition TrimSpace (v : string) : string := trimRight (trimLeft v).

Definition checkMediaTypeDisposition (s : string) : option string :=
  let '(typ, rest) := consumeToken s in
  if String.eqb typ "" then Some "mime: no media type"
  else if String.eqb rest "" then None
  else match rest with
       | String "/" rest =>
           let '(subtype, rest) := consumeToken rest in
           if String.eqb subtype "" then Some "mime: expected token after slash"
           else if String.eqb rest "" then None
           else Some "mime: unexpected content after media subtype"
       | _ => Some "mime: expected slash after first token"
       end.

(** The inside of a quoted string, after its opening quote: the value
    and the rest behind the closing quote. *)
Fixpoint consumeQuoted (v : string) : option (string * string) :=
  match v with
  | "" => None
  | String c v' =>
      if Ascii.eqb c dq then Some ("", v')
      else if (code c =? 13) || (code c =? 10) then None
      else
        match v' with
        | String e v'' =>
            if Ascii.eqb c "\" && isTSpecial e then
              match consumeQuoted v'' with
              | Some (t, rest) => Some (String e t, rest)
              | None => None
              end
            else
              match consumeQuoted v' with
              | Some (t, rest) => Some (String c t, rest)
              | None => None
              end
        | "" => None
        end
  end.

Definition consumeValue (v : string) : string * string :=
  match v with
  | "" => ("", "")
  | String c v' =>
      if Ascii.eqb c dq then
        match consumeQuoted v' with
        | Some r => r
        | None => ("", v)
        end
      else consumeToken v
  end.

(** [consumeMediaParam]: one [; name=value], or an empty name. *)
Definition consumeMediaParam (v : string) : string * string * string :=
  match trimLeft v with
  | String ";" rest =>
      let '(param, rest) := consumeToken (trimLeft rest) in
      let param := ToLower param in
      if String.eqb param "" then ("", "", v)
      else match trimLeft rest with
           | String "=" rest =>
               let rest := trimLeft rest in
               let '(value, rest2) := consumeValue rest in
               if String.eqb value "" && String.eqb rest2 rest then ("", "", v)
               else (param, value, rest2)
           | _ => ("", "", v)
           end
  | _ => ("", "", v)
  end.

(** The parameter loop of [mime.ParseMediaType]; [fuel] bounds its turns
    (every turn consumes at least one byte). Parameter names with a
    star (the continuations of RFC 2231) are kept as they stand. *)
Fixpoint mediaParams (fuel : nat) (mediatype : string) (v : string)
         (params : gmap string string)
  : string * gmap string string * option string :=
  match fuel with
  | O => (mediatype, params, None)
  | S fuel =>
      let v := trimLeft v in
      if String.eqb v "" then (mediatype, params, None)
      else
        let '(key, value, rest) := consumeMediaParam v in
        if String.eqb key "" then
          if String.eqb (TrimSpace rest) ";" then (mediatype, params, None)
          else (mediatype, ∅, Some "mime: invalid media parameter")
        else
          match params !! key with
          | Some v0 =>
              if String.eqb v0 value
              then mediaParams fuel mediatype rest params
              else ("", ∅, Some "mime: duplicate parameter name")
          | None => mediaParams fuel mediatype rest (<[key := value]> params)
          end
  end.

(** [mime.ParseMediaType]. *)
Definition ParseMediaType (v : string)
  : string * gmap string string * option string :=
  let '(base, _, _) := Cut v ";" in
  let mediatype := TrimSpace (ToLower base) in
  match checkMediaTypeDisposition mediatype with
  | Some err => ("", ∅, Some err)
  | None =>
      let v := substring (String.length base)
                         (String.length v - String.length base) v in
      mediaParams (S (String.length v)) mediatype v ∅
  end.

(** ** mime/multipart *)

Definition crlf : string := String (ascii_of_nat 13) nl.

Definition upper (c : ascii) : ascii :=
  if (97 <=? code c) && (code c <=? 122) then chr (code c - 32) else c.

(** [textproto.CanonicalMIMEHeaderKey]: the first letter and every
    letter after a hyphen in upper case, the others in lower case. *)
Fixpoint canonicalKey (up : bool) (s : string) : string :=
  match s with
  | "" => ""
  | String c s' =>
      String (if up then upper c else lower c) (canonicalKey (Ascii.eqb c "-") s')
  end.

(** The header block of a part: one [Key: value] per line. *)
Definition partHeader (block : string) : Values :=
  foldl (fun h line =>
           let '(k, v, found) := Cut line ":" in
           if found then
             let k := canonicalKey true k in
             <[k := default [] (h !! k) ++ [TrimSpace v]]> h
           else h)
        ∅ (pieces (ascii_of_nat 10) block).

(** [filepath.Base] on a slash-separated name. *)
Definition Base (name : string) : string := List.last (pieces "/" name) "".

(** One part put into the form, as the loop of [ReadForm] does: a part
    without a file name is a value, one with a file name is a file. *)
Definition addPart (form : multipart.Form) (header : Values) (content : string)
  : multipart.Form :=
  let '(disposition, params, err) :=
    ParseMediaType (http.Header_Get header "Content-Disposition") in
  let params := match err with Some _ => ∅ | None => params end in
  let name := if String.eqb disposition "form-data"
              then default "" (params !! "name") else "" in
  if String.eqb name "" then form
  else
    let filename := default "" (params !! "filename") in
    if String.eqb filename "" then
      {| multipart.Value :=
           <[name := default [] (multipart.Value form !! name) ++ [content]]>
             (multipart.Value form);
         multipart.File := multipart.File form |}
    else
      let fh := {| multipart.Filename := Base filename;
                   multipart.Header := header;
                   multipart.Size := Z.of_nat (String.length content) |} in
      {| multipart.Value := multipart.Value form;
         multipart.File :=
           <[name := default [] (multipart.File form !! name) ++ [fh]]>
             (multipart.File form) |}.

(** The parts behind a delimiter line, until the closing delimiter. *)
Fixpoint readParts (fuel : nat) (dash : string) (data : string)
         (form : multipart.Form) : multipart.Form + string :=
  match fuel with
  | O => inr "multipart: NextPart: EOF"
  | S fuel =>
      if HasPrefix data "--" then inl form
      else
        let '(_, after, found) := Cut data crlf in
        if negb found then inr "multipart: NextPart: EOF"
        else
          let '(block, content, found) :=
            if HasPrefix after crlf
            then ("", substring 2 (String.length after - 2) after, true)
            else Cut after (crlf +:+ crlf) in
          if negb found then inr "multipart: NextPart: EOF"
          else
            let '(content, rest, found) := Cut content (crlf +:+ dash) in
            if negb found then inr "multipart: NextPart: unexpected EOF"
            else readParts fuel dash rest (addPart form (partHeader block) content)
  end.

(** [ReadForm]: the form read from a body with the given boundary. The
    limits [ReadForm] derives from [maxMemory] bound where the parts are
    kept and how much is accepted, never what a part that is accepted
    contains; they are left out. *)
Definition ReadForm (boundary : string) (maxMemory : Z) (b : list Byte.byte)
  : multipart.Form + string :=
  let data := string_of_list_byte b in
  let dash := "--" +:+ boundary in
  let '(_, after, found) := Cut data dash in
  if negb found then inr "multipart: NextPart: EOF"
  else readParts (String.length data) dash after
                 {| multipart.Value := ∅; multipart.File := ∅ |}.

End golib.

(** The library the examples run against. *)
#[export] Instance RefLib : StdLib := {|
  json_Valid := golib.Valid;
  json_Indent := golib.Indent;
  url_ParseQuery := golib.ParseQuery;
  mime_ParseMediaType := golib.ParseMediaType;
  multipart_ReadForm := golib.ReadForm;
  http_parseBasicAuth := golib.parseBasicAuth
|}.

(* ===================================================================== *)
(** * Notions used in the statements *)
(* ===================================================================== *)

(** The response writer the server hands to the handler. *)
Definition fresh_writer : ResponseWriter := {| status := None |}.

(** The three body representations of a snapshot. The raw one counts as
    populated as soon as the flag is set or the buffer holds a byte. *)
Definition rawPopulated (q : Request) : bool :=
  BodyIsString q || negb (Z.of_nat (length (Body q)) =? 0).
Definition formPopulated (q : Request) : bool :=
  bool_decide (BodyFormValues q <> None).
Definition multipartPopulated (q : Request) : bool :=
  bool_decide (BodyMultipartFormValues q <> None).

Definition populated (q : Request) : nat :=
  (if rawPopulated q then 1 else 0)
  + (if formPopulated q then 1 else 0)
  + (if multipartPopulated q then 1 else 0).

(** The snapshot [q] with both form representations taken out. *)
Definition without_forms (q : Request) : Request :=
  {| Method := Method q; Path := Path q; RequestUri := RequestUri q;
     Protocol := Protocol q; Host := Host q; RemoteAddress := RemoteAddress q;
     ContentLength := ContentLength q; ContentType := ContentType q;
     Headers := Headers q; QueryParams := QueryParams q;
     BasicAuth := BasicAuth q; BodyIsString := BodyIsString q;
     BodyParseError := BodyParseError q; Body := Body q;
     BodyFormValues := None; BodyMultipartFormValues := None |}.

(** Some behaviour exists. *)
Definition live (B : Beh) : Prop := exists t, t ∈ B.

(** Exactly one behaviour: the output does not depend on any map order. *)
Definition det (B : Beh) : Prop := exists t, B = [t].

(** Any trace of [A] and any trace of [B] hold the same writes, each as
    often, in some order. *)
Definition same_writes (A B : Beh) : Prop :=
  forall t1 t2, t1 ∈ A -> t2 ∈ B -> t1 ≡ₚ t2.

(** The headings the raw branch of [printBody] can open with. *)
Definition raw_headings : list Out :=
  [Stdout ("Body:" +:+ strings.nl);
   Stdout ("Body (valid json):" +:+ strings.nl);
   Stdout ("Body (invalid json):" +:+ strings.nl)].

(* ===================================================================== *)
(** * Example requests *)
(* ===================================================================== *)

Module Examples.

Definition cfg : Config :=
  {| Port := portDefaultValue; ShouldFormatJson := true;
     IsHelpRequested := false; MaxFormBodySizeInMB := 10 |}.

Definition cfg_plain : Config :=
  {| Port := portDefaultValue; ShouldFormatJson := false;
     IsHelpRequested := false; MaxFormBodySizeInMB := 10 |}.

(** A request as the server of [net/http] builds it from the wire. *)
Definition request (method target path query : string) (header : Values)
           (data : list Byte.byte) : http.Request :=
  {| http.Method := method; http.URL_Path := path;
     http.URL_RawQuery := query; http.RequestURI := target;
     http.Proto := "HTTP/1.1"; http.Host := "localhost:3000";
     http.RemoteAddr := "127.0.0.1:50000";
     http.ContentLength := Z.of_nat (length data);
     http.Header := header;
     http.Body := match data with
                  | [] => http.NoBody
                  | _ => http.body data None false None
                  end;
     http.PostForm := None; http.Form := None; http.MultipartForm := None |}.

(** [POST /submit] with the form body [a=1&a=2&b=x]. *)
Definition post_form : http.Request :=
  request "POST" "/submit" "/submit" ""
          (<["Content-Type" := ["application/x-www-form-urlencoded"]]> ∅)
          (list_byte_of_string "a=1&a=2&b=x").

(** [DELETE /items?a=1] declaring a form body. *)
Definition delete_form : http.Request :=
  request "DELETE" "/items?a=1" "/items" "a=1"
          (<["Content-Type" := ["application/x-www-form-urlencoded"]]> ∅)
          (list_byte_of_string "x=1").

(** The text [{"a":[1,2]}]. *)
Definition json_text : string :=
  "{" +:+ strings.quote +:+ "a" +:+ strings.quote +:+ ":[1,2]}".

(** [POST /api] with that JSON body. *)
Definition post_json : http.Request :=
  request "POST" "/api" "/api" ""
          (<["Content-Type" := ["application/json"]]> ∅)
          (list_byte_of_string json_text).

(** [GET /ping] with two header fields and no body. *)
Definition get_ping : http.Request :=
  request "GET" "/ping" "/ping" ""
          (<["Accept" := ["*/*"]]> (<["User-Agent" := ["curl/8.5.0"]]> ∅)) [].

(** [POST /upload] with a multipart body [data], as every client sends
    it: the boundary is a parameter of the content type. *)
Definition post_upload (data : list Byte.byte) : http.Request :=
  request "POST" "/upload" "/upload" ""
          (<["Content-Type" := ["multipart/form-data; boundary=XyZ"]]> ∅) data.

(** The dispositions [form-data; name="name"] of a field and
    [form-data; name="upload"; filename="upload.bin"] of a file part. *)
Definition disposition_name : string :=
  "form-data; name=" +:+ strings.quote +:+ "name" +:+ strings.quote.
Definition disposition_upload : string :=
  "form-data; name=" +:+ strings.quote +:+ "upload" +:+ strings.quote
  +:+ "; filename=" +:+ strings.quote +:+ "upload.bin" +:+ strings.quote.

(** The multipart body with the field [name=foo] and the file part
    [upload], a file of [n] bytes. *)
Definition upload_body (n : nat) : list Byte.byte :=
  list_byte_of_string
    ("--XyZ" +:+ golib.crlf
     +:+ "Content-Disposition: " +:+ disposition_name +:+ golib.crlf
     +:+ golib.crlf +:+ "foo" +:+ golib.crlf
     +:+ "--XyZ" +:+ golib.crlf
     +:+ "Content-Disposition: " +:+ disposition_upload
     +:+ golib.crlf +:+ golib.crlf)
  ++ repeat Byte.x00 n
  ++ list_byte_of_string (golib.crlf +:+ "--XyZ--" +:+ golib.crlf).

(** The snapshot [NewRequest] builds, or an empty one if it built none
    (it always builds one, [NewRequest_returns]). *)
Definition snapshot (r : http.Request) : Request :=
  default {| Method := ""; Path := ""; RequestUri := ""; Protocol := "";
             Host := ""; RemoteAddress := ""; ContentLength := 0;
             ContentType := ""; Headers := ∅; QueryParams := ∅;
             BasicAuth := {| username := ""; password := ""; ok := false |};
             BodyIsString := false; BodyParseError := None; Body := [];
             BodyFormValues := None; BodyMultipartFormValues := None |}
          (NewRequest cfg r).1.1.

(** The form a parse of [upload_body 3145728] yields: the field, and the
    file part with its name, header and size. *)
Definition upload_form : multipart.Form :=
  {| multipart.Value := <["name" := ["foo"]]> ∅;
     multipart.File :=
       <["upload" :=
           [{| multipart.Filename := "upload.bin";
               multipart.Header :=
                 <["Content-Disposition" :=
                     [disposition_upload]]> ∅;
               multipart.Size := 3145728 |}]]> ∅ |}.

End Examples.

(* ===================================================================== *)
(** * Start-up: [NewConfig] and [main] *)
(* ===================================================================== *)

(** What [flag.Parse] found on the command line: the value of each flag
    that was given, [None] for a flag that was not. (A command line that
    [pflag] cannot parse ends the process inside the library.) *)
Record Flags := {
  flag_help : option bool;
  flag_port : option Z;
  flag_format_json : option bool;
  flag_form_data_size : option Z
}.

(** [NewConfig]: the flags over their defaults, then [Validate], whose
    panic passes through. *)
Definition NewConfig (listen : string -> ListenResult) (args : Flags)
  : Run (option Config * option string) :=
  let config :=
    {| Port := default portDefaultValue (flag_port args);
       ShouldFormatJson := default true (flag_format_json args);
       IsHelpRequested := default false (flag_help args);
       MaxFormBodySizeInMB := default 10 (flag_form_data_size args) |} in
  match Validate listen config with
  | Panics msg => Panics msg
  | Returns (Some err) => Returns (None, Some err)
  | Returns None => Returns (Some config, None)
  end.

(** The address [runHttpServer] serves on: [fmt.Sprintf(":%d", Cfg.Port)]. *)
Definition serverAddr (Cfg : Config) : string := ":" +:+ fmt.d (Port Cfg).

(** How [main] goes on after start-up: the process exits (with the usage
    text printed by [flag.Usage], or with a message written by the
    recovering [defer]), or [runHttpServer] runs with the configuration,
    serving on an address. *)
Inductive StartupEvent :=
| Usage
| Fatal (msg : string).

Inductive Startup :=
| Exit (code : Z) (ev : StartupEvent)
| Serve (Cfg : Config) (addr : string).

(** [main]. The deferred function recovers every panic: the one [main]
    raises with the error of [NewConfig], and the one of a port probe
    that could not close its listener. A nil configuration without an
    error, which [NewConfig] never returns, would make
    [Cfg.IsHelpRequested] panic. *)
Definition main (listen : string -> ListenResult) (args : Flags) : Startup :=
  match NewConfig listen args with
  | Panics msg =>
      Exit 1 (Fatal ("fatal error occurred: " +:+ msg +:+ strings.nl))
  | Returns (_, Some err) =>
      Exit 1 (Fatal ("fatal error occurred: " +:+ err +:+ strings.nl))
  | Returns (None, None) =>
      Exit 1 (Fatal ("fatal error occurred: runtime error: "
                     +:+ "invalid memory address or nil pointer dereference"
                     +:+ strings.nl))
  | Returns (Some config, None) =>
      if IsHelpRequested config then Exit 0 Usage
      else Serve config (serverAddr config)
  end.

(* ===================================================================== *)
(** * Further notions used in the statements *)
(* ===================================================================== *)

(** What was written to the logger, message by message. *)
Definition logged (t : Trace) : list string :=
  omap (fun o => match o with Logged s => Some s | Stdout _ => None end) t.

(** The lines of the entries [kvs] of a map of string slices, visited in
    that order: one per value, the values of a key in slice order. *)
Definition pair_lines (kvs : list (string * list string)) : Trace :=
  flat_map (fun kv => map (map_line kv.1) kv.2) kvs.

(** The summary line of a snapshot, as [Print] logs it. *)
Definition summary (q : Request) : string :=
  Method q +:+ " " +:+ Path q +:+ " " +:+ Protocol q +:+ strings.nl.


(** The file line of a part in the multipart block. *)
Definition file_line (filename size : string) : Out :=
  Stdout (strings.tab +:+ strings.tab +:+ filename +:+ " (" +:+ size +:+ " MB)"
          +:+ strings.nl).

(** The line of one header key of a part: its values between brackets. *)
Definition part_header_line (values : list string) : Out :=
  Stdout (strings.tab +:+ strings.tab +:+ strings.tab +:+ fmt.s_slice values
          +:+ strings.nl).

Module Cases.

(** A request with one header field, the content type, and a body stream. *)
Definition with_body (method contentType : string) (body : http.ReadCloser)
  : http.Request :=
  {| http.Method := method; http.URL_Path := "/hook"; http.URL_RawQuery := "";
     http.RequestURI := "/hook"; http.Proto := "HTTP/1.1";
     http.Host := "localhost:3000"; http.RemoteAddr := "127.0.0.1:50000";
     http.ContentLength := 5;
     http.Header := <["Content-Type" := [contentType]]> ∅;
     http.Body := body;
     http.PostForm := None; http.Form := None; http.MultipartForm := None |}.

(** A plain-text body that arrives whole, and one whose connection breaks
    after two bytes. *)
Definition text_ok : http.Request :=
  with_body "POST" "text/plain"
            (http.body (list_byte_of_string "hello") None false None).
Definition text_broken : http.Request :=
  with_body "POST" "text/plain"
            (http.body (list_byte_of_string "he") (Some "unexpected EOF") false None).

(** A form body whose connection breaks, sent with a method whose body
    [ParseForm] does not read. *)
Definition form_broken : http.Request :=
  with_body "DELETE" "application/x-www-form-urlencoded"
            (http.body (list_byte_of_string "a=") (Some "unexpected EOF") false None).


(** A binary body. *)
Definition binary : http.Request :=
  with_body "POST" "application/octet-stream"
            (http.body (list_byte_of_string "hello") None false None).


End Cases.

(** A behaviour that writes to standard output only. *)
Definition quiet (B : Beh) : Prop := Forall (fun t => logged t = []) B.

(* ===================================================================== *)
(** * Facts about Go strings *)
(* ===================================================================== *)

Section StringFacts.
Import strings.

Lemma HasPrefix_nil s : HasPrefix s "" = true.
Proof. unfold HasPrefix. destruct s; reflexivity. Qed.

Lemma HasPrefix_empty c p : HasPrefix "" (String c p) = false.
Proof. reflexivity. Qed.

Lemma HasPrefix_cons d s c p :
  HasPrefix (String d s) (String c p) = Ascii.eqb d c && HasPrefix s p.
Proof.
  unfold HasPrefix. cbn [String.length substring String.eqb].
  change (S (String.length p) <=? S (String.length s))%nat
    with (String.length p <=? String.length s)%nat.
  destruct (String.length p <=? String.length s)%nat; cbn;
    destruct (Ascii.eqb d c); reflexivity.
Qed.

Lemma HasPrefix_spec s p : HasPrefix s p = true <-> exists t, s = p +:+ t.
Proof.
  revert s. induction p as [|c p IH]; intros s.
  - rewrite HasPrefix_nil. split; [intros _; exists s; reflexivity | reflexivity].
  - destruct s as [|d s].
    + rewrite HasPrefix_empty. split; [discriminate | intros [t Ht]; discriminate].
    + rewrite HasPrefix_cons, andb_true_iff, Ascii.eqb_eq, IH. split.
      * intros [-> [t ->]]. exists t. reflexivity.
      * intros [t Ht]. cbn in Ht. injection Ht as -> ->. eauto.
Qed.

Lemma IndexFrom_range i s sub : IndexFrom i s sub = -1 \/ i <= IndexFrom i s sub.
Proof.
  revert i. induction s as [|c s IH]; intros i; cbn [IndexFrom].
  - destruct (HasPrefix "" sub); [right; lia | left; reflexivity].
  - destruct (HasPrefix (String c s) sub); [right; lia |].
    destruct (IH (i + 1)); [left; assumption | right; lia].
Qed.

Lemma IndexFrom_found i s sub :
  0 <= i -> (0 <= IndexFrom i s sub <-> exists a b, s = a +:+ sub +:+ b).
Proof.
  revert i. induction s as [|c s IH]; intros i Hi; cbn [IndexFrom].
  - destruct (HasPrefix "" sub) eqn:E.
    + split; [intros _ | lia]. apply HasPrefix_spec in E as [t Ht].
      exists "", t. exact Ht.
    + split; [lia |]. intros (a & b & H). exfalso.
      destruct a; [| discriminate].
      assert (HasPrefix "" sub = true) by (apply HasPrefix_spec; eauto).
      congruence.
  - destruct (HasPrefix (String c s) sub) eqn:E.
    + split; [intros _ | lia]. apply HasPrefix_spec in E as [t Ht].
      exists "", t. exact Ht.
    + rewrite IH by lia. split.
      * intros (a & b & ->). exists (String c a), b. reflexivity.
      * intros (a & b & H). destruct a as [|c' a].
        -- exfalso. assert (HasPrefix (String c s) sub = true)
             by (apply HasPrefix_spec; eauto). congruence.
        -- cbn in H. injection H as _ ->. eauto.
Qed.

Lemma Contains_spec s sub :
  Contains s sub = true <-> exists a b, s = a +:+ sub +:+ b.
Proof.
  unfold Contains, Index. rewrite Z.leb_le. apply IndexFrom_found. lia.
Qed.
End StringFacts.

(* ===================================================================== *)
(** * The content classifier *)
(* ===================================================================== *)

(** C6. [isStringContentType] answers true exactly for the content types
    that start with [text/], contain [json], contain [xml], or are the
    URL-encoded form type; it is a function of the string alone. *)
Theorem isStringContentType_iff (contentType : string) :
  isStringContentType contentType = true <->
  (exists rest, contentType = "text/" +:+ rest)
  \/ (exists a b, contentType = a +:+ "json" +:+ b)
  \/ (exists a b, contentType = a +:+ "xml" +:+ b)
  \/ contentType = "application/x-www-form-urlencoded".
Proof.
  unfold isStringContentType.
  rewrite <- HasPrefix_spec, <- !Contains_spec, <- String.eqb_eq.
  unfold mimetype.ApplicationXWwwFormUrlencoded.
  destruct (strings.HasPrefix contentType "text/"); [tauto |].
  destruct (strings.Contains contentType "json"); [tauto |].
  destruct (strings.Contains contentType "xml"); [tauto |].
  destruct (contentType =? "application/x-www-form-urlencoded")%string;
    intuition discriminate.
Qed.

(* ===================================================================== *)
(** * Port validation *)
(* ===================================================================== *)

(** C10. The range test is strict on both sides: a configuration passes
    [Validate] only with a port strictly between 1024 and 65535, and the
    ports 1024 and 65535 themselves are refused with the message that
    names the range between 1024 and 65535. *)
Theorem Validate_port_bounds (listen : string -> ListenResult) (c : Config) :
  (isPortInValidRange (Port c) portMinValue portMaxValue = true
   <-> 1024 < Port c < 65535)
  /\ (Validate listen c = Returns None -> 1024 < Port c < 65535)
  /\ (Port c = 1024 \/ Port c = 65535 ->
      Validate listen c
      = Returns
          (Some "expecting port to be in the range between 1024 and 65535")).
Proof.
  assert (R : isPortInValidRange (Port c) portMinValue portMaxValue = true
              <-> 1024 < Port c < 65535).
  { unfold isPortInValidRange, portMinValue, portMaxValue.
    rewrite andb_true_iff, !Z.ltb_lt. reflexivity. }
  split; [exact R |]. split.
  - unfold Validate.
    destruct (isPortInValidRange (Port c) portMinValue portMaxValue) eqn:E;
      cbn [negb]; [intros _; apply R; reflexivity | discriminate].
  - intros H. unfold Validate.
    assert (E : isPortInValidRange (Port c) portMinValue portMaxValue = false)
      by (apply not_true_iff_false; rewrite R; lia).
    rewrite E. reflexivity.
Qed.

(* ===================================================================== *)
(** * Behaviours *)
(* ===================================================================== *)

Section BehFacts.

Lemma elem_of_emit o t : t ∈ emit o <-> t = [o].
Proof. unfold emit. apply list_elem_of_singleton. Qed.

Lemma elem_of_skip t : t ∈ skip <-> t = [].
Proof. unfold skip. apply list_elem_of_singleton. Qed.

Lemma elem_of_seq (a b : Beh) t :
  t ∈ (a ;; b) <-> exists t1 t2, t1 ∈ a /\ t2 ∈ b /\ t = t1 ++ t2.
Proof.
  unfold seq. rewrite list_elem_of_bind. split.
  - intros (t1 & H & H1). apply list_elem_of_bind in H as (t2 & H & H2).
    apply list_elem_of_ret in H. eauto.
  - intros (t1 & t2 & H1 & H2 & ->). exists t1. split; [| assumption].
    apply list_elem_of_bind. exists t2. split; [| assumption].
    apply list_elem_of_ret. reflexivity.
Qed.

Lemma elem_of_range {V} (m : gmap string V) kvs :
  kvs ∈ range m <-> kvs ≡ₚ map_to_list m.
Proof. unfold range. rewrite permutations_Permutation. split; intros H; by symmetry. Qed.

Lemma live_emit o : live (emit o).
Proof. exists [o]. by apply elem_of_emit. Qed.

Lemma live_skip : live skip.
Proof. exists []. by apply elem_of_skip. Qed.

Lemma live_seq a b : live a -> live b -> live (a ;; b).
Proof. intros [t1 H1] [t2 H2]. exists (t1 ++ t2). apply elem_of_seq. eauto. Qed.

Lemma live_for_each {A} (f : A -> Beh) l :
  (forall x, live (f x)) -> live (for_each f l).
Proof.
  intros Hf. induction l as [|x l IH]; cbn.
  - apply live_skip.
  - apply live_seq; auto.
Qed.

Lemma live_ranged {V} (m : gmap string V) (f : list (string * V) -> Beh) :
  (forall kvs, live (f kvs)) -> live (range m ≫= f).
Proof.
  intros Hf. destruct (Hf (map_to_list m)) as [t Ht]. exists t.
  apply list_elem_of_bind. exists (map_to_list m). split; [assumption |].
  by apply elem_of_range.
Qed.

Lemma live_single (t : Trace) : live [t].
Proof. exists t. by apply list_elem_of_singleton. Qed.

End BehFacts.

Create HintDb live.
#[local] Hint Resolve live_emit live_skip live_seq live_for_each live_ranged
  live_single : live.

Section PrintLive.
Context {L : StdLib}.
Variable Cfg : Config.

Lemma live_printStrMap m : live (printStrMap m).
Proof. unfold printStrMap. auto with live. Qed.

Lemma live_printStrSliceMap m : live (printStrSliceMap m).
Proof. unfold printStrSliceMap. auto 6 with live. Qed.

Lemma live_printFilePart v : live (printFilePart v).
Proof.
  unfold printFilePart, Println.
  destruct (negb _); auto 8 with live.
Qed.

Lemma live_printFiles files : live (printFiles files).
Proof.
  unfold printFiles. apply live_ranged. intros kvs. apply live_for_each.
  intros kv. apply live_seq; [apply live_emit |].
  apply live_for_each, live_printFilePart.
Qed.

Lemma live_printBody (q : Request) : live (printBody Cfg q).
Proof.
  pose proof live_printStrSliceMap. pose proof live_printFiles.
  unfold printBody, printBytes, Println.
  repeat case_match; auto 8 with live.
Qed.

Lemma live_Print (q : Request) : live (Print Cfg q).
Proof.
  pose proof (live_printBody q). pose proof live_printStrSliceMap.
  pose proof live_printStrMap.
  unfold Print, printAuth, printHeaders, printQueryParams, Println, Println2.
  repeat apply live_seq; auto with live;
    repeat match goal with
           | |- live (if ?c then _ else _) => destruct c
           end; auto 8 with live.
Qed.

End PrintLive.

(* ===================================================================== *)
(** * The snapshot built by [NewRequest] *)
(* ===================================================================== *)

Section Snapshot.
Context {L : StdLib}.
Variable Cfg : Config.

Lemma ParseForm_MultipartForm r :
  http.MultipartForm (http.ParseForm r).2 = http.MultipartForm r.
Proof. unfold http.ParseForm. repeat case_match; simplify_eq; reflexivity. Qed.

(** [NewRequest] always returns a snapshot and never an error. *)
Lemma NewRequest_returns r : exists q t, NewRequest Cfg r = (Some q, None, t).
Proof. unfold NewRequest. repeat case_match; eauto. Qed.

Lemma NewRequest_ContentType r q e t :
  NewRequest Cfg r = (Some q, e, t) ->
  ContentType q = http.Header_Get (http.Header r) "Content-Type"
  /\ BodyIsString q = isStringContentType (ContentType q).
Proof.
  unfold NewRequest. intros H. repeat case_match; simplify_eq; auto.
Qed.

(** The buffer is read for text-like content types only. *)
Lemma NewRequest_Body_binary r q e t :
  NewRequest Cfg r = (Some q, e, t) -> BodyIsString q = false -> Body q = [].
Proof.
  unfold NewRequest. intros H.
  repeat case_match; simplify_eq; cbn; congruence.
Qed.

(** For a text-like content type the buffer is what [readBodyAsBytes]
    returns on the body stream of the request. *)
Lemma NewRequest_Body_text r q e t :
  NewRequest Cfg r = (Some q, e, t) -> BodyIsString q = true ->
  Body q = (readBodyAsBytes (http.Body r)).1.1.1.
Proof.
  unfold NewRequest. intros H.
  repeat case_match; simplify_eq; cbn; congruence.
Qed.

(** The form mapping is set under the URL-encoded content type only. *)
Lemma NewRequest_form r q e t :
  NewRequest Cfg r = (Some q, e, t) ->
  BodyFormValues q <> None ->
  ContentType q = mimetype.ApplicationXWwwFormUrlencoded.
Proof.
  unfold NewRequest. intros H.
  repeat case_match; simplify_eq; cbn; try congruence;
    intros _; by apply String.eqb_eq.
Qed.

(** The multipart form is set under the bare multipart content type only. *)
Lemma NewRequest_multipart r q e t :
  http.inbound r ->
  NewRequest Cfg r = (Some q, e, t) ->
  BodyMultipartFormValues q <> None ->
  ContentType q = mimetype.MultipartFormData.
Proof.
  intros (_ & _ & Hm). unfold NewRequest. intros H.
  repeat case_match; simplify_eq; cbn;
    try (intros _; by apply String.eqb_eq);
    repeat match goal with
           | H : http.ParseForm ?r = (_, ?r') |- context [http.MultipartForm ?r'] =>
               let E := fresh in
               pose proof (ParseForm_MultipartForm r) as E;
               rewrite H in E; cbn in E; rewrite E; clear E
           end; cbn; congruence.
Qed.

End Snapshot.

(* ===================================================================== *)
(** * The response status *)
(* ===================================================================== *)

(** C1. Whatever the request and whatever the parsers of the library
    answer, the handler runs to its end and the status it sends is 202:
    [NewRequest] returns no error, so the only [WriteHeader] reached is the
    last one. A body-parse error is a field of the snapshot and is never
    looked at. *)
Theorem handler_status_accepted (L : StdLib) (Cfg : Config) (r : http.Request) :
  live (fst <$> handler Cfg fresh_writer r)
  /\ Forall (fun tw => status tw.2 = Some http.StatusAccepted)
            (handler Cfg fresh_writer r).
Proof.
  destruct (NewRequest_returns Cfg r) as (q & t0 & E).
  unfold handler. rewrite E. cbn. split.
  - destruct (live_Print Cfg q) as [tp Htp].
    exists (t0 ++ tp ++ []). apply list_elem_of_fmap.
    exists (t0 ++ tp ++ [], {| status := Some http.StatusAccepted |}).
    split; [reflexivity |]. apply list_elem_of_bind. exists tp.
    split; [| assumption]. apply list_elem_of_ret. reflexivity.
  - apply Forall_bind, Forall_forall. intros tp _. cbn.
    apply Forall_forall. intros tw Htw. apply list_elem_of_ret in Htw.
    subst tw. reflexivity.
Qed.

(* ===================================================================== *)
(** * Body representations *)
(* ===================================================================== *)

Lemma isString_multipart :
  isStringContentType mimetype.MultipartFormData = false.
Proof. vm_compute. reflexivity. Qed.

Lemma isString_urlencoded :
  isStringContentType mimetype.ApplicationXWwwFormUrlencoded = true.
Proof. vm_compute. reflexivity. Qed.

(** C2, as stated, fails: [DELETE /items?a=1] with the URL-encoded content
    type and the body [x=1] yields a snapshot with the raw buffer and the
    form mapping both populated. *)
Lemma delete_form_two_branches :
  http.inbound Examples.delete_form
  /\ BodyIsString (Examples.snapshot Examples.delete_form) = true
  /\ Body (Examples.snapshot Examples.delete_form) = list_byte_of_string "x=1"
  /\ BodyFormValues (Examples.snapshot Examples.delete_form)
     = Some (<["a" := ["1"]]> ∅)
  /\ populated (Examples.snapshot Examples.delete_form) = 2%nat.
Proof. vm_compute. repeat split. Qed.

(* ===================================================================== *)
(** * The body block of the report *)
(* ===================================================================== *)

Section BodyBlock.
Context {L : StdLib}.
Variable Cfg : Config.

(** The early return of [printBody]: nothing is printed for an empty
    buffer, whatever else the snapshot holds. *)
Lemma printBody_empty q : Body q = [] -> printBody Cfg q = skip.
Proof. unfold printBody. intros ->. reflexivity. Qed.

Lemma length_nonzero {A} (l : list A) :
  l <> [] -> (Z.of_nat (length l) =? 0) = false.
Proof. destruct l; [congruence | reflexivity]. Qed.

(** With the flag set and a byte in the buffer, the form representations
    are not looked at. *)
Lemma printBody_raw q :
  BodyIsString q = true -> Body q <> [] ->
  printBody Cfg q = printBody Cfg (without_forms q).
Proof.
  intros Hs Hb. unfold printBody. cbn [without_forms Body BodyIsString ContentType].
  rewrite (length_nonzero _ Hb), Hs. reflexivity.
Qed.

Lemma printBody_raw_heading q :
  BodyIsString q = true -> Body q <> [] ->
  Forall (fun t => exists h rest, t = h :: rest /\ h ∈ raw_headings)
         (printBody Cfg q).
Proof.
  intros Hs Hb. unfold printBody. rewrite (length_nonzero _ Hb), Hs.
  apply Forall_forall. intros t Ht.
  repeat case_match;
    apply elem_of_seq in Ht as (t1 & t2 & Ht1 & _ & ->);
    apply elem_of_emit in Ht1 as ->;
    eexists _, _; (split; [reflexivity |]);
    unfold raw_headings; set_solver.
Qed.

(** For a snapshot built by [NewRequest] the body block never depends on
    the form mapping or on the multipart form: either the buffer is
    empty, or the flag is set. *)
Lemma snapshot_printBody_ignores_forms r q e t :
  NewRequest Cfg r = (Some q, e, t) ->
  printBody Cfg q = printBody Cfg (without_forms q).
Proof.
  intros H. destruct (Body q) as [|b bs] eqn:Eb.
  - rewrite !printBody_empty; auto.
  - destruct (BodyIsString q) eqn:Es.
    + apply printBody_raw; congruence.
    + rewrite (NewRequest_Body_binary Cfg r q e t H Es) in Eb. discriminate.
Qed.

End BodyBlock.

(** C3, on the request the claim describes. [POST /submit] with the
    URL-encoded content type and the body [a=1&a=2&b=x]: the content type
    is text-like, so the body is read into the buffer and, whatever the
    parsers of the library answer, the body block of the report is the raw
    text under [Body:]. With the reference parsers, the form parser fails
    on the stream that reading the buffer has closed, and the form mapping
    stays nil. *)
Theorem post_form_reported_raw (L : StdLib) (Cfg : Config) :
  (exists q t,
      NewRequest Cfg Examples.post_form = (Some q, None, t)
      /\ BodyIsString q = true
      /\ Body q = list_byte_of_string "a=1&a=2&b=x"
      /\ printBody Cfg q
         = [[Stdout ("Body:" +:+ strings.nl);
             Stdout ("a=1&a=2&b=x" +:+ strings.nl)]])
  /\ BodyFormValues (Examples.snapshot Examples.post_form) = None
  /\ BodyParseError (Examples.snapshot Examples.post_form)
     = Some "error parsing form values: http: invalid Read on closed Body"
  /\ handler (L := RefLib) Examples.cfg fresh_writer Examples.post_form
     = [([Logged ("POST /submit HTTP/1.1" +:+ strings.nl);
          Stdout ("Host: localhost:3000" +:+ strings.nl);
          Stdout ("Remote Address: 127.0.0.1:50000" +:+ strings.nl);
          Stdout ("Headers:" +:+ strings.nl);
          Stdout (strings.tab +:+ "Content-Type: application/x-www-form-urlencoded"
                  +:+ strings.nl);
          Stdout ("Body:" +:+ strings.nl);
          Stdout ("a=1&a=2&b=x" +:+ strings.nl);
          Stdout ("-------------------------" +:+ strings.nl)],
         {| status := Some 202 |})].
Proof.
  split; [| vm_compute; repeat split].
  destruct (NewRequest_returns Cfg Examples.post_form) as (q & t & E).
  exists q, t. split; [exact E |].
  destruct (NewRequest_ContentType Cfg Examples.post_form q None t E) as [Hc Hs].
  assert (Hc' : ContentType q = mimetype.ApplicationXWwwFormUrlencoded)
    by (rewrite Hc; vm_compute; reflexivity).
  rewrite Hc', isString_urlencoded in Hs.
  pose proof (NewRequest_Body_text Cfg Examples.post_form q None t E Hs) as Hb.
  assert (Hb' : Body q = list_byte_of_string "a=1&a=2&b=x")
    by (rewrite Hb; vm_compute; reflexivity).
  split; [exact Hs |]. split; [exact Hb' |].
  unfold printBody. rewrite Hs, Hc', Hb'. vm_compute. reflexivity.
Qed.

(** C4, on the request the claim describes, with any multipart body
    [data] (so also the one with a file of 3,145,728 bytes) and any
    library. The content type carries the boundary, so it is neither
    text-like nor equal to the bare multipart type: the body is not read
    and not parsed, and the report has no body block (third conjunct, with
    the reference parsers). Even a snapshot holding the parsed form prints
    nothing, since its buffer is empty; the lines the multipart branch
    would print for the file part are the last conjunct. *)
Theorem multipart_upload_not_reported (L : StdLib) (Cfg : Config)
        (data : list Byte.byte) :
  (exists q t,
      NewRequest Cfg (Examples.post_upload data) = (Some q, None, t)
      /\ Body q = [] /\ BodyMultipartFormValues q = None
      /\ printBody Cfg q = skip)
  /\ (forall q, Body q = [] -> printBody Cfg q = skip)
  /\ handler (L := RefLib) Examples.cfg fresh_writer (Examples.post_upload data)
     = [([Logged ("POST /upload HTTP/1.1" +:+ strings.nl);
          Stdout ("Host: localhost:3000" +:+ strings.nl);
          Stdout ("Remote Address: 127.0.0.1:50000" +:+ strings.nl);
          Stdout ("Headers:" +:+ strings.nl);
          Stdout (strings.tab +:+ "Content-Type: multipart/form-data; boundary=XyZ"
                  +:+ strings.nl);
          Stdout ("-------------------------" +:+ strings.nl)],
         {| status := Some 202 |})]
  /\ printFiles (multipart.File Examples.upload_form)
     = [[Stdout (strings.tab +:+ "upload:" +:+ strings.nl);
         Stdout (strings.tab +:+ strings.tab +:+ "upload.bin (3.00 MB)"
                 +:+ strings.nl);
         Stdout (strings.tab +:+ strings.tab +:+ "Headers:" +:+ strings.nl);
         Stdout (strings.tab +:+ strings.tab +:+ strings.tab
                 +:+ "[" +:+ Examples.disposition_upload +:+ "]"
                 +:+ strings.nl)]].
Proof.
  split; [| split; [| split]].
  - destruct (NewRequest_returns Cfg (Examples.post_upload data)) as (q & t & E).
    exists q, t. split; [exact E |].
    destruct (NewRequest_ContentType Cfg (Examples.post_upload data) q None t E)
      as [Hc Hs].
    assert (Hb : Body q = []).
    { apply (NewRequest_Body_binary Cfg (Examples.post_upload data) q None t E).
      rewrite Hs, Hc. vm_compute. reflexivity. }
    split; [exact Hb |]. split; [| by apply printBody_empty].
    destruct (BodyMultipartFormValues q) eqn:Em; [exfalso | reflexivity].
    assert (Hm : ContentType q = mimetype.MultipartFormData).
    { apply (NewRequest_multipart Cfg (Examples.post_upload data) q None t);
        [repeat split | exact E | congruence]. }
    rewrite Hc in Hm. vm_compute in Hm. discriminate.
  - intros q. apply printBody_empty.
  - vm_compute. reflexivity.
  - vm_compute. reflexivity.
Qed.

(** C5, as stated, fails: the snapshot of [DELETE /items?a=1] holds a raw
    text buffer and a populated form mapping, and what is printed is the
    raw text, not the form values. *)
Lemma delete_form_printed_raw :
  BodyIsString (Examples.snapshot Examples.delete_form) = true
  /\ Body (Examples.snapshot Examples.delete_form) = list_byte_of_string "x=1"
  /\ BodyFormValues (Examples.snapshot Examples.delete_form)
     = Some (<["a" := ["1"]]> ∅)
  /\ printBody Examples.cfg (Examples.snapshot Examples.delete_form)
     = [[Stdout ("Body:" +:+ strings.nl); Stdout ("x=1" +:+ strings.nl)]]
  /\ printBody Examples.cfg (Examples.snapshot Examples.delete_form)
     <> (Println "Body (Form values):" ;; printStrSliceMap (<["a" := ["1"]]> ∅)).
Proof. vm_compute. repeat split. discriminate. Qed.

(** C5, amended. [printBody] tests the flag of the raw branch before the
    form mapping: for a snapshot with the flag set, a byte in the buffer
    and a form mapping, the block opens with one of the headings of the raw
    branch and is the one printed without the mapping. *)
Theorem printBody_raw_first (L : StdLib) (Cfg : Config) (q : Request)
        (formValues : Values) :
  BodyIsString q = true ->
  Body q <> [] ->
  BodyFormValues q = Some formValues ->
  live (printBody Cfg q)
  /\ printBody Cfg q = printBody Cfg (without_forms q)
  /\ Forall (fun t => exists h rest, t = h :: rest /\ h ∈ raw_headings)
            (printBody Cfg q).
Proof.
  intros Hs Hb _. split; [| split].
  - apply live_printBody.
  - by apply printBody_raw.
  - by apply printBody_raw_heading.
Qed.

Lemma printBody_raw_first_witness :
  BodyIsString (Examples.snapshot Examples.delete_form) = true
  /\ Body (Examples.snapshot Examples.delete_form) = list_byte_of_string "x=1"
  /\ BodyFormValues (Examples.snapshot Examples.delete_form)
     = Some (<["a" := ["1"]]> ∅)
  /\ live (printBody Examples.cfg (Examples.snapshot Examples.delete_form))
  /\ printBody Examples.cfg (Examples.snapshot Examples.delete_form)
     = printBody Examples.cfg (without_forms (Examples.snapshot Examples.delete_form))
  /\ Forall (fun t => exists h rest, t = h :: rest /\ h ∈ raw_headings)
            (printBody Examples.cfg (Examples.snapshot Examples.delete_form)).
Proof.
  split; [vm_compute; reflexivity |]. split; [vm_compute; reflexivity |].
  split; [vm_compute; reflexivity |].
  apply (printBody_raw_first RefLib Examples.cfg
           (Examples.snapshot Examples.delete_form) (<["a" := ["1"]]> ∅)).
  - vm_compute. reflexivity.
  - vm_compute. discriminate.
  - vm_compute. reflexivity.
Defined.

(* ===================================================================== *)
(** * Rendering twice *)
(* ===================================================================== *)

Section SameWrites.

Lemma same_writes_single (t : Trace) : same_writes [t] [t].
Proof.
  intros t1 t2 H1 H2. apply list_elem_of_singleton in H1, H2. by subst.
Qed.

Lemma same_writes_seq a a' b b' :
  same_writes a a' -> same_writes b b' -> same_writes (a ;; b) (a' ;; b').
Proof.
  intros Ha Hb t1 t2 H1 H2.
  apply elem_of_seq in H1 as (x1 & y1 & ? & ? & ->).
  apply elem_of_seq in H2 as (x2 & y2 & ? & ? & ->).
  apply Permutation_app; auto.
Qed.

Lemma same_writes_trans a b c :
  live b -> same_writes a b -> same_writes b c -> same_writes a c.
Proof.
  intros [t Ht] Hab Hbc t1 t2 H1 H2. transitivity t; auto.
Qed.

Lemma same_writes_for_each_refl {A} (f : A -> Beh) l :
  (forall x, same_writes (f x) (f x)) ->
  same_writes (for_each f l) (for_each f l).
Proof.
  intros Hf. induction l as [|x l IH]; cbn.
  - apply same_writes_single.
  - by apply same_writes_seq.
Qed.

(** Running a loop body over the same elements in another order writes
    the same lines. *)
Lemma same_writes_for_each {A} (f : A -> Beh) l1 l2 :
  (forall x, live (f x)) ->
  (forall x, same_writes (f x) (f x)) ->
  l1 ≡ₚ l2 ->
  same_writes (for_each f l1) (for_each f l2).
Proof.
  intros Hl Hf Hp. induction Hp as [| x l1 l2 _ IH | x y l | l1 l2 l3 _ IH1 _ IH2].
  - apply same_writes_single.
  - cbn. by apply same_writes_seq.
  - cbn. intros t1 t2 H1 H2.
    apply elem_of_seq in H1 as (a1 & r1 & Ha1 & H1 & ->).
    apply elem_of_seq in H1 as (b1 & c1 & Hb1 & Hc1 & ->).
    apply elem_of_seq in H2 as (b2 & r2 & Hb2 & H2 & ->).
    apply elem_of_seq in H2 as (a2 & c2 & Ha2 & Hc2 & ->).
    rewrite (Hf _ a1 a2 Ha1 Ha2), (Hf _ b1 b2 Hb1 Hb2),
      (same_writes_for_each_refl f l Hf c1 c2 Hc1 Hc2).
    rewrite !app_assoc. apply Permutation_app_tail, Permutation_app_comm.
  - apply same_writes_trans with (for_each f l2); auto.
    by apply live_for_each.
Qed.

Lemma same_writes_ranged {V} (m : gmap string V) (f : string * V -> Beh) :
  (forall x, live (f x)) ->
  (forall x, same_writes (f x) (f x)) ->
  same_writes (range m ≫= for_each f) (range m ≫= for_each f).
Proof.
  intros Hl Hf t1 t2 H1 H2.
  apply list_elem_of_bind in H1 as (l1 & H1 & R1).
  apply list_elem_of_bind in H2 as (l2 & H2 & R2).
  apply elem_of_range in R1, R2.
  apply (same_writes_for_each f l1 l2 Hl Hf); [| assumption | assumption].
  by rewrite R1, R2.
Qed.

Lemma same_writes_emit o : same_writes (emit o) (emit o).
Proof. apply same_writes_single. Qed.

Lemma same_writes_skip : same_writes skip skip.
Proof. apply same_writes_single. Qed.

End SameWrites.

Create HintDb writes.
#[local] Hint Resolve same_writes_single same_writes_seq same_writes_emit
  same_writes_skip same_writes_for_each_refl live_emit live_for_each : writes.

Section PrintWrites.
Context {L : StdLib}.
Variable Cfg : Config.

Lemma same_writes_printStrMap m : same_writes (printStrMap m) (printStrMap m).
Proof. unfold printStrMap. apply same_writes_ranged; auto with writes. Qed.

Lemma same_writes_printStrSliceMap m :
  same_writes (printStrSliceMap m) (printStrSliceMap m).
Proof. unfold printStrSliceMap. apply same_writes_ranged; auto with writes. Qed.

Lemma same_writes_printFilePart v :
  same_writes (printFilePart v) (printFilePart v).
Proof.
  unfold printFilePart, Println. apply same_writes_seq; [auto with writes |].
  destruct (negb _); [| auto with writes].
  apply same_writes_seq; [auto with writes |].
  apply same_writes_ranged; auto with writes.
Qed.

Lemma same_writes_printFiles files :
  same_writes (printFiles files) (printFiles files).
Proof.
  unfold printFiles. apply same_writes_ranged.
  - intros kv. apply live_seq; [apply live_emit |].
    apply live_for_each, live_printFilePart.
  - intros kv. apply same_writes_seq; [auto with writes |].
    apply same_writes_for_each_refl, same_writes_printFilePart.
Qed.

Lemma same_writes_printBody q : same_writes (printBody Cfg q) (printBody Cfg q).
Proof.
  pose proof same_writes_printStrSliceMap. pose proof same_writes_printFiles.
  unfold printBody, printBytes, Println.
  repeat case_match; auto 8 with writes.
Qed.

Lemma same_writes_Print q : same_writes (Print Cfg q) (Print Cfg q).
Proof.
  pose proof (same_writes_printBody q). pose proof same_writes_printStrSliceMap.
  pose proof same_writes_printStrMap.
  unfold Print, printAuth, printHeaders, printQueryParams, Println, Println2.
  repeat apply same_writes_seq; auto with writes;
    repeat case_match; auto 8 with writes.
Qed.

End PrintWrites.

Section Det.

Lemma det_single (t : Trace) : det [t].
Proof. by exists t. Qed.

Lemma det_emit o : det (emit o).
Proof. apply det_single. Qed.

Lemma det_skip : det skip.
Proof. apply det_single. Qed.

Lemma det_seq a b : det a -> det b -> det (a ;; b).
Proof. intros [t1 ->] [t2 ->]. by exists (t1 ++ t2). Qed.

Lemma det_for_each {A} (f : A -> Beh) l :
  (forall x, det (f x)) -> det (for_each f l).
Proof.
  intros Hf. induction l as [|x l IH]; cbn.
  - apply det_skip.
  - by apply det_seq.
Qed.

(** A map with at most one key is ranged over in one way only. *)
Lemma det_ranged {V} (m : gmap string V) (f : list (string * V) -> Beh) :
  (size m <= 1)%nat -> (forall kvs, det (f kvs)) -> det (range m ≫= f).
Proof.
  intros Hm Hf. unfold range. rewrite <- length_map_to_list in Hm.
  destruct (map_to_list m) as [|x [|y l]]; cbn in *; try lia.
  - destruct (Hf []) as [t ->]. by exists t.
  - destruct (Hf [x]) as [t ->]. by exists t.
Qed.

End Det.

Create HintDb det.
#[local] Hint Resolve det_single det_emit det_skip det_seq det_for_each : det.

Section PrintTwice.
Context {L : StdLib}.
Variable Cfg : Config.

Lemma det_printStrSliceMap m : (size m <= 1)%nat -> det (printStrSliceMap m).
Proof. intros H. unfold printStrSliceMap. apply det_ranged; auto 6 with det. Qed.

Lemma det_printBody_raw q :
  BodyIsString q = true \/ Body q = [] -> det (printBody Cfg q).
Proof.
  intros [Hs | Hb].
  - unfold printBody, printBytes, Println. rewrite Hs.
    repeat case_match; auto 8 with det.
  - rewrite printBody_empty by assumption. apply det_skip.
Qed.

End PrintTwice.

(** C8, as stated, fails: the snapshot of [GET /ping] has two header
    fields, and [Print] can write them in either order. *)
Lemma get_ping_two_renders :
  exists t1 t2,
    t1 ∈ Print Examples.cfg (Examples.snapshot Examples.get_ping)
    /\ t2 ∈ Print Examples.cfg (Examples.snapshot Examples.get_ping)
    /\ stdout t1
       = "Host: localhost:3000" +:+ strings.nl
         +:+ "Remote Address: 127.0.0.1:50000" +:+ strings.nl
         +:+ "Headers:" +:+ strings.nl
         +:+ strings.tab +:+ "User-Agent: curl/8.5.0" +:+ strings.nl
         +:+ strings.tab +:+ "Accept: */*" +:+ strings.nl
         +:+ "-------------------------" +:+ strings.nl
    /\ stdout t2
       = "Host: localhost:3000" +:+ strings.nl
         +:+ "Remote Address: 127.0.0.1:50000" +:+ strings.nl
         +:+ "Headers:" +:+ strings.nl
         +:+ strings.tab +:+ "Accept: */*" +:+ strings.nl
         +:+ strings.tab +:+ "User-Agent: curl/8.5.0" +:+ strings.nl
         +:+ "-------------------------" +:+ strings.nl
    /\ stdout t1 <> stdout t2.
Proof.
  eexists _, _. split; [| split; [| split; [| split]]].
  - vm_compute. apply list_elem_of_here.
  - vm_compute. apply list_elem_of_further, list_elem_of_here.
  - vm_compute. reflexivity.
  - vm_compute. reflexivity.
  - vm_compute. discriminate.
Qed.

(** C8, amended. On standard output, two renders of one snapshot under
    one configuration make the same writes, each as often, and differ at
    most in the order in which the keys of a map were visited; the text on
    standard output is one and the same when no map that is printed has
    more than one key. (The summary line is not part of this: it goes
    through the logger, which puts the date and time of the call in front
    of it.) *)
Theorem Print_twice (L : StdLib) (Cfg : Config) (q : Request) :
  live (Print Cfg q)
  /\ Forall (fun t1 =>
       Forall (fun t2 => stdout_lines t1 ≡ₚ stdout_lines t2) (Print Cfg q))
     (Print Cfg q)
  /\ (ok (BasicAuth q) = false ->
      (size (Headers q) <= 1)%nat ->
      (size (QueryParams q) <= 1)%nat ->
      BodyIsString q = true \/ Body q = [] ->
      exists text, Forall (fun t => stdout t = text) (Print Cfg q)).
Proof.
  split; [apply live_Print |]. split.
  - apply Forall_forall. intros t1 H1. apply Forall_forall. intros t2 H2.
    unfold stdout_lines. apply omap_Permutation.
    by apply (same_writes_Print Cfg q).
  - intros Hok Hh Hq Hb.
    pose proof (det_printBody_raw Cfg q Hb).
    pose proof (det_printStrSliceMap _ Hh). pose proof (det_printStrSliceMap _ Hq).
    assert (Hd : det (Print Cfg q)).
    { unfold Print, printAuth, printHeaders, printQueryParams, Println, Println2.
      rewrite Hok. repeat apply det_seq; auto with det;
        repeat case_match; auto 8 with det. }
    destruct Hd as [t ->]. exists (stdout t). by apply Forall_singleton.
Qed.

(* ===================================================================== *)
(** * JSON bodies with formatting off *)
(* ===================================================================== *)

Lemma isString_json contentType :
  strings.Contains contentType "json" = true ->
  isStringContentType contentType = true.
Proof.
  intros H. unfold isStringContentType. rewrite H.
  by destruct (strings.HasPrefix _ _).
Qed.

(** C9. For a snapshot with a non-empty buffer of valid JSON and a content
    type containing [json], with JSON formatting switched off, the body
    block is the heading line and nothing else. *)
Theorem printBody_valid_json_unformatted (L : StdLib) (Cfg : Config)
        (r : http.Request) (q : Request) (e : option string) (t : Trace) :
  NewRequest Cfg r = (Some q, e, t) ->
  Body q <> [] ->
  json_Valid (Body q) = true ->
  strings.Contains (ContentType q) "json" = true ->
  ShouldFormatJson Cfg = false ->
  printBody Cfg q = [[Stdout ("Body (valid json):" +:+ strings.nl)]].
Proof.
  intros H Hb Hv Hc Hf.
  destruct (NewRequest_ContentType Cfg r q e t H) as [_ Hs].
  rewrite (isString_json _ Hc) in Hs.
  unfold printBody. rewrite (length_nonzero _ Hb), Hs, Hc, Hv, Hf.
  reflexivity.
Qed.

Lemma printBody_valid_json_unformatted_witness :
  NewRequest Examples.cfg_plain Examples.post_json
  = (Some (Examples.snapshot Examples.post_json), None, [])
  /\ Body (Examples.snapshot Examples.post_json)
     = list_byte_of_string Examples.json_text
  /\ json_Valid (Body (Examples.snapshot Examples.post_json)) = true
  /\ ContentType (Examples.snapshot Examples.post_json) = "application/json"
  /\ ShouldFormatJson Examples.cfg_plain = false
  /\ printBody Examples.cfg_plain (Examples.snapshot Examples.post_json)
     = [[Stdout ("Body (valid json):" +:+ strings.nl)]].
Proof.
  split; [vm_compute; reflexivity |]. split; [vm_compute; reflexivity |].
  split; [vm_compute; reflexivity |]. split; [vm_compute; reflexivity |].
  split; [reflexivity |].
  apply (printBody_valid_json_unformatted RefLib Examples.cfg_plain
           Examples.post_json (Examples.snapshot Examples.post_json) None []).
  - vm_compute. reflexivity.
  - vm_compute. discriminate.
  - vm_compute. reflexivity.
  - vm_compute. reflexivity.
  - reflexivity.
Defined.

(* ===================================================================== *)
(** * The reference parsers on small inputs *)
(* ===================================================================== *)

Example f2_MB_three : fmt.f2_MB (fmt.float64_of_int 3145728) = "3.00".
Proof. reflexivity. Qed.

Example f2_MB_rounds :
  map (fun n => fmt.f2_MB (fmt.float64_of_int n)) [0; 5242; 5243; 1572864; -1]
  = ["0.00"; "0.00"; "0.01"; "1.50"; "-0.00"].
Proof. vm_compute. reflexivity. Qed.

Example ParseQuery_form :
  golib.ParseQuery "a=1&a=2&b=x"
  = (<["b" := ["x"]]> (<["a" := ["1"; "2"]]> ∅), None).
Proof. vm_compute. reflexivity. Qed.

Example Valid_json :
  map (fun s => golib.Valid (list_byte_of_string s))
      [Examples.json_text; "[1, 2.5e3, true, null]"; "{}"; "[1,]"; "{a:1}"; ""]
  = [true; true; true; false; false; false].
Proof. vm_compute. reflexivity. Qed.

Example ReadForm_upload :
  golib.ReadForm "XyZ" (Z.shiftl 10 20) (Examples.upload_body 10)
  = inl {| multipart.Value := <["name" := ["foo"]]> ∅;
           multipart.File :=
             <["upload" :=
                 [{| multipart.Filename := "upload.bin";
                     multipart.Header :=
                       <["Content-Disposition" := [Examples.disposition_upload]]> ∅;
                     multipart.Size := 10 |}]]> ∅ |}.
Proof. vm_compute. reflexivity. Qed.

(* ===================================================================== *)
(** * Start-up *)
(* ===================================================================== *)

Lemma uint64_port (p : Z) : 1024 < p < 65535 -> uint64 p = p.
Proof. intros H. unfold uint64. apply Z.mod_small. lia. Qed.

Lemma Validate_cases (listen : string -> ListenResult) (c : Config) :
  (1024 < Port c < 65535 /\ listen (serverAddr c) = Listener None
   /\ Validate listen c = Returns None)
  \/ (1024 < Port c < 65535
      /\ (exists err, listen (serverAddr c) = ListenError err)
      /\ Validate listen c
         = Returns (Some ("can't listen on " +:+ fmt.d (Port c)
                          +:+ ", port already in use")))
  \/ (1024 < Port c < 65535
      /\ exists err, listen (serverAddr c) = Listener (Some err)
         /\ Validate listen c = Panics ("failed to close port listener: " +:+ err))
  \/ ((Port c <= 1024 \/ 65535 <= Port c)
      /\ Validate listen c
         = Returns
             (Some "expecting port to be in the range between 1024 and 65535")).
Proof.
  unfold Validate, isPortInValidRange, isPortAvailable, portMinValue, portMaxValue.
  destruct (1024 <? Port c) eqn:E1;
    [| right; right; right; split; [lia | reflexivity]].
  destruct (Port c <? 65535) eqn:E2;
    [| right; right; right; split; [lia | reflexivity]].
  assert (R : 1024 < Port c < 65535) by lia.
  cbn [andb negb]. rewrite (uint64_port _ R). fold (serverAddr c).
  destruct (listen (serverAddr c)) as [err | [err |]].
  - right; left. eauto.
  - right; right; left. eauto.
  - left. auto.
Qed.

(** X1. [Validate] accepts a configuration exactly when its port lies
    strictly between 1024 and 65535 and the operating system both lets
    the probe listen on the address [runHttpServer] will serve on and
    closes the probe's listener without an error. It panics exactly when
    the port is in range and the listener was opened but could not be
    closed, with a message that carries the error of [Close]. *)
Theorem Validate_accepts (listen : string -> ListenResult) (c : Config) :
  (Validate listen c = Returns None
   <-> 1024 < Port c < 65535 /\ listen (serverAddr c) = Listener None)
  /\ (forall msg,
        Validate listen c = Panics msg
        <-> 1024 < Port c < 65535
            /\ exists err, listen (serverAddr c) = Listener (Some err)
                           /\ msg = "failed to close port listener: " +:+ err).
Proof.
  destruct (Validate_cases listen c)
    as [(R & Hl & E) | [(R & [err Hl] & E) | [(R & err & Hl & E) | (R & E)]]];
    rewrite E, ?Hl.
  - split; [tauto |].
    intros msg; split; [discriminate | intros (_ & err & H & _); congruence].
  - split; [split; [discriminate | intros [_ H]; congruence] |].
    intros msg; split; [discriminate | intros (_ & err' & H & _); congruence].
  - split; [split; [discriminate | intros [_ H]; congruence] |].
    intros msg; split.
    + intros [= <-]. eauto.
    + intros (_ & err' & [= <-] & ->). reflexivity.
  - split; [split; [discriminate | intros [H _]; lia] |].
    intros msg; split; [discriminate | intros (H & _); lia].
Qed.

(** X2. The range test comes first: for a port out of range [Validate]
    answers with the range message whatever the operating system would say
    about the port, and only for a port in range that cannot be listened on
    with the message naming the port. *)
Theorem Validate_rejects (listen : string -> ListenResult) (c : Config) :
  (Port c <= 1024 \/ 65535 <= Port c ->
   Validate listen c
   = Returns (Some "expecting port to be in the range between 1024 and 65535"))
  /\ (1024 < Port c < 65535 ->
      forall err, listen (serverAddr c) = ListenError err ->
      Validate listen c
      = Returns (Some ("can't listen on " +:+ fmt.d (Port c)
                       +:+ ", port already in use"))).
Proof.
  destruct (Validate_cases listen c)
    as [(R & Hl & E) | [(R & [err Hl] & E) | [(R & err & Hl & E) | (R & E)]]];
    split; intros; try lia; congruence.
Qed.

(** X3. [main] validates before it looks at the help flag. With the port
    [p] (the flag, or 3000) in range, free, and its probing listener
    closed without an error, it prints the usage and exits with 0 when
    help was asked for, and otherwise serves on [:p] with the flags over
    their defaults; in every other case it exits with 1, help or not. In
    particular a probe that listened but could not close its listener
    panics, and the deferred function of [main] turns the panic into the
    logged message and the exit code 1. *)
Theorem main_outcome (listen : string -> ListenResult) (args : Flags) :
  (1024 < default portDefaultValue (flag_port args) < 65535
   /\ listen (":" +:+ fmt.d (default portDefaultValue (flag_port args)))
      = Listener None ->
   main listen args
   = if default false (flag_help args) then Exit 0 Usage
     else Serve {| Port := default portDefaultValue (flag_port args);
                   ShouldFormatJson := default true (flag_format_json args);
                   IsHelpRequested := false;
                   MaxFormBodySizeInMB := default 10 (flag_form_data_size args) |}
                (":" +:+ fmt.d (default portDefaultValue (flag_port args))))
  /\ (~ (1024 < default portDefaultValue (flag_port args) < 65535
         /\ listen (":" +:+ fmt.d (default portDefaultValue (flag_port args)))
            = Listener None) ->
      exists msg, main listen args = Exit 1 (Fatal msg))
  /\ (1024 < default portDefaultValue (flag_port args) < 65535 ->
      forall err,
        listen (":" +:+ fmt.d (default portDefaultValue (flag_port args)))
        = Listener (Some err) ->
        main listen args
        = Exit 1 (Fatal ("fatal error occurred: failed to close port listener: "
                         +:+ err +:+ strings.nl))).
Proof.
  unfold main, NewConfig.
  set (c := {| Port := default portDefaultValue (flag_port args);
               ShouldFormatJson := default true (flag_format_json args);
               IsHelpRequested := default false (flag_help args);
               MaxFormBodySizeInMB := default 10 (flag_form_data_size args) |}).
  pose proof (Validate_cases listen c) as Hc.
  change (Port c) with (default portDefaultValue (flag_port args)) in Hc.
  change (serverAddr c)
    with (":" +:+ fmt.d (default portDefaultValue (flag_port args))) in Hc.
  destruct Hc
    as [(R & Hl & E) | [(R & [err Hl] & E) | [(R & err & Hl & E) | (R & E)]]];
    rewrite E.
  - split; [| split].
    + intros _. cbn [IsHelpRequested c].
      destruct (default false (flag_help args)); reflexivity.
    + intros H. exfalso. apply H. auto.
    + intros _ err H. congruence.
  - split; [| split].
    + intros [_ H]. congruence.
    + eauto.
    + intros _ err' H. congruence.
  - split; [| split].
    + intros [_ H]. congruence.
    + eauto.
    + intros _ err' H. rewrite Hl in H. injection H as <-. reflexivity.
  - split; [| split].
    + intros [H _]. lia.
    + eauto.
    + intros H. lia.
Qed.

(* ===================================================================== *)
(** * Content types with parameters *)
(* ===================================================================== *)

Lemma append_assoc (a b c : string) : (a +:+ b) +:+ c = a +:+ (b +:+ c).
Proof.
  induction a as [|x a IH]; [reflexivity |].
  change (String x ((a +:+ b) +:+ c) = String x (a +:+ (b +:+ c))).
  by rewrite IH.
Qed.

Lemma append_self_inv (s t : string) : s +:+ t = s -> t = "".
Proof.
  induction s as [|x s IH]; [auto |].
  change (String x (s +:+ t) = String x s -> t = "").
  intros H. injection H as H. auto.
Qed.

Lemma HasPrefix_app s p t :
  strings.HasPrefix s p = true -> strings.HasPrefix (s +:+ t) p = true.
Proof.
  rewrite !HasPrefix_spec. intros [u ->]. exists (u +:+ t). apply append_assoc.
Qed.

Lemma Contains_app s sub t :
  strings.Contains s sub = true -> strings.Contains (s +:+ t) sub = true.
Proof.
  rewrite !Contains_spec. intros (a & b & ->). exists a, (b +:+ t).
  by rewrite !append_assoc.
Qed.

(** X4. What follows a content type, such as [; charset=utf-8], does not
    change the answer of [isStringContentType] for a type accepted by its
    prefix or substring rules, but the URL-encoded form type is accepted by
    equality only: followed by anything it is text-like only if the whole
    string happens to contain [json] or [xml]. *)
Theorem isStringContentType_parameters (contentType suffix : string) :
  (isStringContentType contentType = true ->
   contentType <> mimetype.ApplicationXWwwFormUrlencoded ->
   isStringContentType (contentType +:+ suffix) = true)
  /\ (suffix <> "" ->
      isStringContentType (mimetype.ApplicationXWwwFormUrlencoded +:+ suffix)
      = strings.Contains (mimetype.ApplicationXWwwFormUrlencoded +:+ suffix) "json"
        || strings.Contains (mimetype.ApplicationXWwwFormUrlencoded +:+ suffix) "xml").
Proof.
  split.
  - unfold isStringContentType. intros H Hne.
    destruct (strings.HasPrefix contentType "text/") eqn:E1;
      [by rewrite (HasPrefix_app _ _ suffix E1) |].
    destruct (strings.Contains contentType "json") eqn:E2;
      [rewrite (Contains_app _ _ suffix E2);
       destruct (strings.HasPrefix (contentType +:+ suffix) "text/"); reflexivity |].
    destruct (strings.Contains contentType "xml") eqn:E3;
      [rewrite (Contains_app _ _ suffix E3);
       destruct (strings.HasPrefix (contentType +:+ suffix) "text/"),
         (strings.Contains (contentType +:+ suffix) "json"); reflexivity |].
    destruct (String.eqb_spec contentType mimetype.ApplicationXWwwFormUrlencoded);
      [contradiction | discriminate].
  - intros Hs. unfold isStringContentType.
    assert (E1 : strings.HasPrefix
                   (mimetype.ApplicationXWwwFormUrlencoded +:+ suffix) "text/" = false).
    { destruct (strings.HasPrefix _ _) eqn:E; [| reflexivity].
      apply HasPrefix_spec in E as [u Hu]. vm_compute in Hu. discriminate. }
    assert (E4 : String.eqb (mimetype.ApplicationXWwwFormUrlencoded +:+ suffix)
                            mimetype.ApplicationXWwwFormUrlencoded = false).
    { apply String.eqb_neq. intros H. apply append_self_inv in H. contradiction. }
    rewrite E1, E4.
    destruct (strings.Contains _ "json"), (strings.Contains _ "xml"); reflexivity.
Qed.

(* ===================================================================== *)
(** * What [NewRequest] puts into the snapshot *)
(* ===================================================================== *)

Section SnapshotFields.
Context {L : StdLib}.
Variable Cfg : Config.

Lemma NewRequest_logged r q e t :
  NewRequest Cfg r = (Some q, e, t) ->
  t = if isStringContentType (ContentType q)
      then (readBodyAsBytes (http.Body r)).2 else [].
Proof.
  unfold NewRequest. intros H.
  repeat case_match; simplify_eq; cbn in *; congruence.
Qed.

Lemma NewRequest_error_plain r q e t :
  NewRequest Cfg r = (Some q, e, t) ->
  ContentType q <> mimetype.ApplicationXWwwFormUrlencoded ->
  ContentType q <> mimetype.MultipartFormData ->
  BodyParseError q
  = if isStringContentType (ContentType q)
    then (readBodyAsBytes (http.Body r)).1.1.2 else None.
Proof.
  unfold NewRequest. intros H.
  repeat case_match; simplify_eq; cbn in *;
    repeat match goal with
           | H : String.eqb _ _ = true |- _ => apply String.eqb_eq in H
           end; try congruence.
Qed.

End SnapshotFields.

Section Transport.
Context {L : StdLib}.
Variable Cfg : Config.

(** The parsers fill the form fields of a request and move its body
    stream; everything else stays. *)
Lemma ParseForm_frame r :
  let r' := (http.ParseForm r).2 in
  http.Method r' = http.Method r /\ http.URL_Path r' = http.URL_Path r
  /\ http.URL_RawQuery r' = http.URL_RawQuery r
  /\ http.RequestURI r' = http.RequestURI r /\ http.Proto r' = http.Proto r
  /\ http.Host r' = http.Host r /\ http.RemoteAddr r' = http.RemoteAddr r
  /\ http.ContentLength r' = http.ContentLength r
  /\ http.Header r' = http.Header r.
Proof.
  unfold http.ParseForm. repeat case_match; simplify_eq; cbn; repeat split.
Qed.

Lemma ParseMultipartForm_frame n r :
  let r' := (http.ParseMultipartForm n r).2 in
  http.Method r' = http.Method r /\ http.URL_Path r' = http.URL_Path r
  /\ http.URL_RawQuery r' = http.URL_RawQuery r
  /\ http.RequestURI r' = http.RequestURI r /\ http.Proto r' = http.Proto r
  /\ http.Host r' = http.Host r /\ http.RemoteAddr r' = http.RemoteAddr r
  /\ http.ContentLength r' = http.ContentLength r
  /\ http.Header r' = http.Header r.
Proof.
  unfold http.ParseMultipartForm.
  destruct (http.Form r) eqn:Ef.
  - repeat case_match; simplify_eq; cbn; repeat split.
  - pose proof (ParseForm_frame r) as Hf. cbv zeta in Hf.
    destruct (http.ParseForm r) as [pe r1]. cbn [snd] in Hf.
    destruct Hf as (? & ? & ? & ? & ? & ? & ? & ? & ?).
    repeat case_match; simplify_eq; cbn; repeat split; congruence.
Qed.

End Transport.

Section Fields.
Context {L : StdLib}.
Variable Cfg : Config.

Lemma NewRequest_fields (r : http.Request)
        (q : Request) (e : option string) (t : Trace) :
  NewRequest Cfg r = (Some q, e, t) ->
  e = None
  /\ Method q = (if String.eqb (http.Method r) "" then "GET" else http.Method r)
  /\ Method q <> ""
  /\ Path q = http.URL_Path r
  /\ RequestUri q = http.RequestURI r
  /\ Protocol q = http.Proto r
  /\ Host q = http.Host r
  /\ RemoteAddress q = http.RemoteAddr r
  /\ ContentLength q = http.ContentLength r
  /\ Headers q = http.Header r
  /\ QueryParams q = http.URL_Query r
  /\ ContentType q = http.Header_Get (http.Header r) "Content-Type".
Proof.
  intros H.
  assert (Hm : (if String.eqb (http.Method r) "" then "GET" else http.Method r) <> "").
  { destruct (String.eqb_spec (http.Method r) ""); [discriminate | assumption]. }
  revert H. unfold NewRequest, http.URL_Query.
  destruct (http.BasicAuth r) as [[u p] o].
  destruct (isStringContentType _).
  - destruct (readBodyAsBytes (http.Body r)) as [[[b e1] rc] t1].
    destruct (String.eqb _ mimetype.ApplicationXWwwFormUrlencoded).
    + pose proof (ParseForm_frame (http.set_Body rc r)) as Hf. cbv zeta in Hf.
      destruct (http.ParseForm (http.set_Body rc r)) as [pe r1]. cbn [snd] in Hf.
      destruct Hf as (? & ? & ? & ? & ? & ? & ? & ? & ?).
      destruct pe; intros HN; simplify_eq; cbn in *; repeat split; congruence.
    + destruct (String.eqb _ mimetype.MultipartFormData).
      * pose proof (ParseMultipartForm_frame
                      (shl20_int64 (MaxFormBodySizeInMB Cfg)) (http.set_Body rc r)) as Hf.
        cbv zeta in Hf.
        destruct (http.ParseMultipartForm _ (http.set_Body rc r)) as [pe r1].
        cbn [snd] in Hf. destruct Hf as (? & ? & ? & ? & ? & ? & ? & ? & ?).
        destruct pe; intros HN; simplify_eq; cbn in *; repeat split; congruence.
      * intros HN; simplify_eq; cbn in *; repeat split; congruence.
  - destruct (String.eqb _ mimetype.ApplicationXWwwFormUrlencoded).
    + pose proof (ParseForm_frame r) as Hf. cbv zeta in Hf.
      destruct (http.ParseForm r) as [pe r1]. cbn [snd] in Hf.
      destruct Hf as (? & ? & ? & ? & ? & ? & ? & ? & ?).
      destruct pe; intros HN; simplify_eq; cbn in *; repeat split; congruence.
    + destruct (String.eqb _ mimetype.MultipartFormData).
      * pose proof (ParseMultipartForm_frame
                      (shl20_int64 (MaxFormBodySizeInMB Cfg)) r) as Hf.
        cbv zeta in Hf.
        destruct (http.ParseMultipartForm _ r) as [pe r1].
        cbn [snd] in Hf. destruct Hf as (? & ? & ? & ? & ? & ? & ? & ? & ?).
        destruct pe; intros HN; simplify_eq; cbn in *; repeat split; congruence.
      * intros HN; simplify_eq; cbn in *; repeat split; congruence.
Qed.

End Fields.

(** X5. [NewRequest] never fails, and the snapshot carries the fields of
    the request unchanged by the parsers that ran: path, raw target,
    protocol, host, remote address, content length, headers, the values of
    the URL query, the first [Content-Type] value; its method is the
    request's, or [GET] for an empty one, and so never empty. *)
Theorem NewRequest_metadata (L : StdLib) (Cfg : Config) (r : http.Request)
        (q : Request) (e : option string) (t : Trace) :
  NewRequest Cfg r = (Some q, e, t) ->
  e = None
  /\ Method q = (if String.eqb (http.Method r) "" then "GET" else http.Method r)
  /\ Method q <> ""
  /\ Path q = http.URL_Path r
  /\ RequestUri q = http.RequestURI r
  /\ Protocol q = http.Proto r
  /\ Host q = http.Host r
  /\ RemoteAddress q = http.RemoteAddr r
  /\ ContentLength q = http.ContentLength r
  /\ Headers q = http.Header r
  /\ QueryParams q = http.URL_Query r
  /\ ContentType q = http.Header_Get (http.Header r) "Content-Type".
Proof. apply NewRequest_fields. Qed.

Lemma NewRequest_metadata_witness :
  NewRequest Examples.cfg Examples.delete_form
  = (Some (Examples.snapshot Examples.delete_form), None, [])
  /\ Method (Examples.snapshot Examples.delete_form) = "DELETE"
  /\ Path (Examples.snapshot Examples.delete_form) = "/items"
  /\ RequestUri (Examples.snapshot Examples.delete_form) = "/items?a=1"
  /\ QueryParams (Examples.snapshot Examples.delete_form) = <["a" := ["1"]]> ∅.
Proof.
  split; [vm_compute; reflexivity |].
  destruct (NewRequest_metadata RefLib Examples.cfg Examples.delete_form
              (Examples.snapshot Examples.delete_form) None [])
    as (_ & Hm & _ & Hp & Hu & _ & _ & _ & _ & _ & Hq & _);
    [vm_compute; reflexivity |].
  rewrite Hm, Hp, Hu, Hq. vm_compute. repeat split.
Defined.

(* ===================================================================== *)
(** * Reading the body *)
(* ===================================================================== *)

(** X6. For a content type that is not text-like the body is not read:
    the buffer and the form mapping are empty, nothing is logged, and the
    report has no body block, not even the line for a body of unknown
    kind. *)
Theorem binary_body_not_reported (L : StdLib) (Cfg : Config) (r : http.Request)
        (q : Request) (e : option string) (t : Trace) :
  NewRequest Cfg r = (Some q, e, t) ->
  isStringContentType (ContentType q) = false ->
  Body q = [] /\ BodyFormValues q = None /\ t = [] /\ printBody Cfg q = skip.
Proof.
  intros H Hs.
  destruct (NewRequest_ContentType Cfg r q e t H) as [_ Hi]. rewrite Hs in Hi.
  pose proof (NewRequest_Body_binary Cfg r q e t H Hi) as Hb.
  split; [exact Hb |]. split; [| split].
  - destruct (BodyFormValues q) eqn:Ef; [exfalso | reflexivity].
    assert (Hc : ContentType q = mimetype.ApplicationXWwwFormUrlencoded)
      by (apply (NewRequest_form Cfg r q e t H); congruence).
    rewrite Hc, isString_urlencoded in Hs. discriminate.
  - rewrite (NewRequest_logged Cfg r q e t H), Hs. reflexivity.
  - by apply printBody_empty.
Qed.

Lemma binary_body_not_reported_witness :
  NewRequest Examples.cfg Cases.binary
  = (Some (Examples.snapshot Cases.binary), None, [])
  /\ ContentType (Examples.snapshot Cases.binary) = "application/octet-stream"
  /\ Body (Examples.snapshot Cases.binary) = []
  /\ BodyFormValues (Examples.snapshot Cases.binary) = None
  /\ printBody Examples.cfg (Examples.snapshot Cases.binary) = skip.
Proof.
  split; [vm_compute; reflexivity |]. split; [vm_compute; reflexivity |].
  destruct (binary_body_not_reported RefLib Examples.cfg Cases.binary
              (Examples.snapshot Cases.binary) None [])
    as (Hb & Hf & _ & Hp); [vm_compute; reflexivity | vm_compute; reflexivity |].
  auto.
Defined.



(** X8. When the connection fails while a text-like body (not a form) is
    read, the snapshot keeps no byte of it and records the wrapped error;
    [readBodyAsBytes] returns before it closes the stream, nothing is
    logged and the report has no body block. *)
Theorem broken_body_recorded (L : StdLib) (Cfg : Config) (r : http.Request)
        (q : Request) (e : option string) (t : Trace)
        (d : list Byte.byte) (err : string) (closeErr : option string) :
  NewRequest Cfg r = (Some q, e, t) ->
  isStringContentType (ContentType q) = true ->
  ContentType q <> mimetype.ApplicationXWwwFormUrlencoded ->
  http.Body r = http.body d (Some err) false closeErr ->
  Body q = []
  /\ BodyParseError q = Some ("error reading request body: " +:+ err)
  /\ t = []
  /\ (exists rc, readBodyAsBytes (http.Body r) = (Body q, BodyParseError q, rc, t)
                 /\ http.isClosed rc = false)
  /\ printBody Cfg q = skip.
Proof.
  intros H Hs Hn Hr.
  destruct (NewRequest_ContentType Cfg r q e t H) as [_ Hi]. rewrite Hs in Hi.
  pose proof (NewRequest_Body_text Cfg r q e t H Hi) as Hb.
  pose proof (NewRequest_logged Cfg r q e t H) as Ht.
  assert (Hm : ContentType q <> mimetype.MultipartFormData).
  { intros Hc. rewrite Hc, isString_multipart in Hs. discriminate. }
  pose proof (NewRequest_error_plain Cfg r q e t H Hn Hm) as He.
  rewrite Hs, Hr in *. cbn in Hb, Ht, He.
  split; [exact Hb |]. split; [exact He |]. split; [exact Ht |]. split.
  { rewrite Hb, He, Ht. unfold readBodyAsBytes. cbn.
    eexists; split; reflexivity. }
  by apply printBody_empty.
Qed.

Lemma broken_body_recorded_witness :
  Body (Examples.snapshot Cases.text_broken) = []
  /\ BodyParseError (Examples.snapshot Cases.text_broken)
     = Some "error reading request body: unexpected EOF"
  /\ (exists rc,
         readBodyAsBytes (http.Body Cases.text_broken)
         = ([], Some "error reading request body: unexpected EOF", rc, [])
         /\ http.isClosed rc = false)
  /\ printBody Examples.cfg (Examples.snapshot Cases.text_broken) = skip.
Proof.
  destruct (broken_body_recorded RefLib Examples.cfg Cases.text_broken
              (Examples.snapshot Cases.text_broken) None []
              (list_byte_of_string "he") "unexpected EOF" None)
    as (Hb & He & _ & Hc & Hp); try (vm_compute; reflexivity).
  - vm_compute. discriminate.
  - split; [exact Hb |]. split; [exact He |]. split; [| exact Hp].
    rewrite Hb, He in Hc. exact Hc.
Defined.

(* ===================================================================== *)
(** * Form bodies *)
(* ===================================================================== *)

Section FormBodies.
Context {L : StdLib}.
Variable Cfg : Config.

Lemma ParseForm_Form r : http.Form (http.ParseForm r).2 <> None.
Proof.
  unfold http.ParseForm.
  destruct (match http.PostForm r with Some _ => _ | None => _ end) as [err r0].
  destruct (http.Form r0) eqn:E; [cbn; congruence |].
  destruct (url_ParseQuery _); cbn; congruence.
Qed.

Lemma NewRequest_form_outcome r q e t :
  NewRequest Cfg r = (Some q, e, t) ->
  ContentType q = mimetype.ApplicationXWwwFormUrlencoded ->
  (BodyParseError q = None /\ BodyFormValues q <> None)
  \/ (exists err, BodyParseError q = Some ("error parsing form values: " +:+ err)
                  /\ BodyFormValues q = None).
Proof.
  unfold NewRequest. intros H Hc.
  destruct (http.BasicAuth r) as [[u p] o].
  destruct (isStringContentType _).
  - destruct (readBodyAsBytes (http.Body r)) as [[[b e1] rc] t1].
    destruct (String.eqb _ mimetype.ApplicationXWwwFormUrlencoded) eqn:E.
    + pose proof (ParseForm_Form (http.set_Body rc r)) as Hf.
      destruct (http.ParseForm (http.set_Body rc r)) as [pe r1]. cbn [snd] in Hf.
      destruct pe; simplify_eq; cbn; eauto.
    + destruct (String.eqb _ mimetype.MultipartFormData);
        repeat case_match; simplify_eq; cbn in *;
        apply String.eqb_neq in E; contradiction.
  - destruct (String.eqb _ mimetype.ApplicationXWwwFormUrlencoded) eqn:E.
    + pose proof (ParseForm_Form r) as Hf.
      destruct (http.ParseForm r) as [pe r1]. cbn [snd] in Hf.
      destruct pe; simplify_eq; cbn; eauto.
    + destruct (String.eqb _ mimetype.MultipartFormData);
        repeat case_match; simplify_eq; cbn in *;
        apply String.eqb_neq in E; contradiction.
Qed.

(** The form parser after [readBodyAsBytes]: when the empty query parses
    to no value, the form holds the values of the URL query or the parser
    reports an error. *)
Lemma ParseForm_after_read r rc :
  url_ParseQuery "" = (∅, None) ->
  http.inbound r ->
  rc = (readBodyAsBytes (http.Body r)).1.2 ->
  (http.ParseForm (http.set_Body rc r)).1 <> None
  \/ http.Form (http.ParseForm (http.set_Body rc r)).2 = Some (http.URL_Query r).
Proof.
  intros Hq (Hpf & Hf & _) ->.
  unfold http.ParseForm, http.parsePostForm, http.URL_Query, readBodyAsBytes.
  cbn [http.set_Body http.PostForm http.Form http.Method http.Body http.Header
       http.URL_RawQuery http.MultipartForm].
  rewrite Hpf, Hf. change (Z.shiftl 10 20) with 10485760.
  destruct (url_ParseQuery (http.URL_RawQuery r)) as [nv ne] eqn:En.
  assert (Hfin : forall (err : option string),
             http.firstErr err ne <> None \/ (err = None /\ ne = None)).
  { intros [x |]; destruct ne; cbn; auto; left; congruence. }
  destruct (String.eqb (http.Method r) "POST" || String.eqb (http.Method r) "PUT"
            || String.eqb (http.Method r) "PATCH").
  - destruct (mime_ParseMediaType _) as [[ct ps] me].
    destruct (String.eqb ct "application/x-www-form-urlencoded").
    + destruct (http.Body r) as [| d f [] ce]; cbn.
      * rewrite Hq. change (10485760 <? Z.of_nat 0) with false.
        cbn. rewrite En. cbn.
        destruct (Hfin (http.firstErr me None)) as [Hl | [Hl ->]]; auto.
      * rewrite En. cbn. left. destruct me; cbn; congruence.
      * destruct f as [fe |]; cbn;
          [destruct (String.eqb fe http.ErrUnexpectedEOF); cbn |];
          change (10485760 + 1 <=? Z.of_nat 0) with false; cbn.
        -- rewrite Hq. change (10485760 <? Z.of_nat 0) with false.
           cbn. rewrite En. cbn.
           destruct (Hfin (http.firstErr me None)) as [Hl | [Hl ->]]; auto.
        -- rewrite En; cbn; left; destruct me; cbn; congruence.
        -- rewrite En; cbn; left; destruct me; cbn; congruence.
    + cbn. rewrite En. cbn. destruct (Hfin me) as [Hl | [Hl ->]]; auto.
  - cbn. rewrite En. cbn. destruct (Hfin None) as [Hl | [Hl ->]]; auto.
Qed.

End FormBodies.

(** C2, amended. For an inbound request, which body representations the
    snapshot populates follows from the content type and the outcome of
    the form parse. With the content type exactly the URL-encoded one and
    the form parsed without error, the raw buffer (with its flag) and the
    form mapping are both populated and the multipart form is not: two
    representations. With that content type and a form parse that fails,
    only the raw one is populated. With any other content type at most
    one is. *)
Theorem NewRequest_branches (L : StdLib) (Cfg : Config) (r : http.Request)
        (q : Request) (e : option string) (t : Trace) :
  http.inbound r ->
  NewRequest Cfg r = (Some q, e, t) ->
  (ContentType q = mimetype.ApplicationXWwwFormUrlencoded ->
   BodyParseError q = None ->
   rawPopulated q = true /\ formPopulated q = true
   /\ multipartPopulated q = false /\ populated q = 2%nat)
  /\ (ContentType q = mimetype.ApplicationXWwwFormUrlencoded ->
      BodyParseError q <> None ->
      rawPopulated q = true /\ formPopulated q = false
      /\ multipartPopulated q = false /\ populated q = 1%nat)
  /\ (ContentType q <> mimetype.ApplicationXWwwFormUrlencoded ->
      (populated q <= 1)%nat).
Proof.
  intros Hin H.
  destruct (NewRequest_ContentType Cfg r q e t H) as [_ Hs].
  pose proof (NewRequest_Body_binary Cfg r q e t H) as Hb.
  pose proof (NewRequest_form Cfg r q e t H) as Hf.
  pose proof (NewRequest_multipart Cfg r q e t Hin H) as Hm.
  pose proof (NewRequest_form_outcome Cfg r q e t H) as Ho.
  assert (Hu : ContentType q = mimetype.ApplicationXWwwFormUrlencoded ->
               rawPopulated q = true /\ multipartPopulated q = false).
  { intros Hc. unfold rawPopulated, multipartPopulated.
    rewrite Hc, isString_urlencoded in Hs. rewrite Hs. split; [reflexivity |].
    apply bool_decide_eq_false. intros Em. specialize (Hm Em).
    rewrite Hc in Hm. discriminate. }
  unfold populated. split; [| split].
  - intros Hc He. destruct (Hu Hc) as [-> ->].
    destruct (Ho Hc) as [[_ Hv] | (err & He' & _)]; [| congruence].
    unfold formPopulated. rewrite bool_decide_eq_true_2 by exact Hv. auto.
  - intros Hc He. destruct (Hu Hc) as [-> ->].
    destruct (Ho Hc) as [[He' _] | (err & _ & Hv)]; [congruence |].
    unfold formPopulated. rewrite Hv.
    rewrite bool_decide_eq_false_2 by (intros Hx; apply Hx; reflexivity). auto.
  - intros Hc. unfold rawPopulated, formPopulated, multipartPopulated.
    destruct (decide (BodyFormValues q = None)) as [Ef | Ef];
      [| specialize (Hf Ef); contradiction].
    rewrite Ef.
    destruct (decide (BodyMultipartFormValues q = None)) as [Em | Em].
    + rewrite Em. cbn. destruct (_ || _); cbn; lia.
    + specialize (Hm Em). rewrite Hm, isString_multipart in Hs.
      rewrite Hs, (Hb Hs). cbn. destruct (bool_decide _); simpl; lia.
Qed.

Lemma NewRequest_branches_witness :
  (http.inbound Examples.delete_form
   /\ NewRequest Examples.cfg Examples.delete_form
      = (Some (Examples.snapshot Examples.delete_form), None, [])
   /\ BodyParseError (Examples.snapshot Examples.delete_form) = None
   /\ formPopulated (Examples.snapshot Examples.delete_form) = true
   /\ populated (Examples.snapshot Examples.delete_form) = 2%nat)
  /\ (http.inbound Examples.post_form
      /\ BodyParseError (Examples.snapshot Examples.post_form)
         = Some "error parsing form values: http: invalid Read on closed Body"
      /\ formPopulated (Examples.snapshot Examples.post_form) = false
      /\ populated (Examples.snapshot Examples.post_form) = 1%nat)
  /\ (http.inbound Examples.post_json
      /\ (populated (Examples.snapshot Examples.post_json) <= 1)%nat).
Proof.
  split; [| split].
  - split; [vm_compute; repeat split |]. split; [vm_compute; reflexivity |].
    split; [vm_compute; reflexivity |].
    destruct (NewRequest_branches RefLib Examples.cfg Examples.delete_form
                (Examples.snapshot Examples.delete_form) None [])
      as (Hok & _ & _); [vm_compute; repeat split | vm_compute; reflexivity |].
    destruct Hok as (_ & Hf & _ & Hp); [reflexivity | vm_compute; reflexivity |].
    split; [exact Hf | exact Hp].
  - split; [vm_compute; repeat split |]. split; [vm_compute; reflexivity |].
    destruct (NewRequest_branches RefLib Examples.cfg Examples.post_form
                (Examples.snapshot Examples.post_form) None [])
      as (_ & Herr & _); [vm_compute; repeat split | vm_compute; reflexivity |].
    destruct Herr as (_ & Hf & _ & Hp); [reflexivity | vm_compute; discriminate |].
    split; [exact Hf | exact Hp].
  - split; [vm_compute; repeat split |].
    destruct (NewRequest_branches RefLib Examples.cfg Examples.post_json
                (Examples.snapshot Examples.post_json) None [])
      as (_ & _ & Hle); [vm_compute; repeat split | vm_compute; reflexivity |].
    apply Hle. vm_compute. discriminate.
Defined.

(** X9. Under the URL-encoded content type, the parse error of the snapshot
    is the form parser's alone: none, with the form mapping set, or
    [error parsing form values: ...], with the mapping nil. An error of
    reading the body is overwritten. *)
Theorem form_error_overwrites (L : StdLib) (Cfg : Config) (r : http.Request)
        (q : Request) (e : option string) (t : Trace) :
  NewRequest Cfg r = (Some q, e, t) ->
  ContentType q = mimetype.ApplicationXWwwFormUrlencoded ->
  (BodyParseError q = None /\ BodyFormValues q <> None)
  \/ (exists err, BodyParseError q = Some ("error parsing form values: " +:+ err)
                  /\ BodyFormValues q = None).
Proof. apply NewRequest_form_outcome. Qed.

Lemma form_error_overwrites_witness :
  Body (Examples.snapshot Cases.form_broken) = []
  /\ BodyParseError (Examples.snapshot Cases.form_broken) = None
  /\ ((BodyParseError (Examples.snapshot Cases.form_broken) = None
       /\ BodyFormValues (Examples.snapshot Cases.form_broken) <> None)
      \/ (exists err,
             BodyParseError (Examples.snapshot Cases.form_broken)
             = Some ("error parsing form values: " +:+ err)
             /\ BodyFormValues (Examples.snapshot Cases.form_broken) = None)).
Proof.
  split; [vm_compute; reflexivity |]. split; [vm_compute; reflexivity |].
  apply (form_error_overwrites RefLib Examples.cfg Cases.form_broken
           (Examples.snapshot Cases.form_broken) None []);
    vm_compute; reflexivity.
Defined.

(** X10. No field of a form body ever reaches the form mapping. With a
    query parser that finds no value in the empty string, the mapping of
    the snapshot of an inbound request with the URL-encoded content type is
    nil or holds exactly the values of the URL query: the body has been read
    into the buffer, and the stream closed, before the form parser runs. *)
Theorem form_mapping_from_query (L : StdLib) (Cfg : Config) (r : http.Request)
        (q : Request) (e : option string) (t : Trace) :
  url_ParseQuery "" = (∅, None) ->
  http.inbound r ->
  NewRequest Cfg r = (Some q, e, t) ->
  ContentType q = mimetype.ApplicationXWwwFormUrlencoded ->
  BodyFormValues q = None \/ BodyFormValues q = Some (QueryParams q).
Proof.
  intros Hq Hin H Hc.
  destruct (NewRequest_fields Cfg r q e t H)
    as (_ & _ & _ & _ & _ & _ & _ & _ & _ & _ & Hqp & Hct).
  rewrite Hqp. rewrite Hc in Hct. revert H. unfold NewRequest.
  destruct (http.BasicAuth r) as [[u p] o]. rewrite <- Hct, isString_urlencoded.
  pose proof (ParseForm_after_read r (readBodyAsBytes (http.Body r)).1.2
                Hq Hin eq_refl) as Hp.
  destruct (readBodyAsBytes (http.Body r)) as [[[b e1] rc] t1]. cbn [fst snd] in Hp.
  change (String.eqb mimetype.ApplicationXWwwFormUrlencoded
                     mimetype.ApplicationXWwwFormUrlencoded) with true.
  destruct (http.ParseForm (http.set_Body rc r)) as [pe r1]. cbn [fst snd] in Hp.
  destruct pe; intros HN; simplify_eq; cbn; [by left |].
  destruct Hp as [Hp | Hp]; [congruence | by right].
Qed.

Lemma form_mapping_from_query_witness :
  BodyFormValues (Examples.snapshot Examples.delete_form) = None
  \/ BodyFormValues (Examples.snapshot Examples.delete_form)
     = Some (QueryParams (Examples.snapshot Examples.delete_form)).
Proof.
  apply (form_mapping_from_query RefLib Examples.cfg Examples.delete_form
           (Examples.snapshot Examples.delete_form) None []).
  - vm_compute. reflexivity.
  - vm_compute. repeat split.
  - vm_compute. reflexivity.
  - vm_compute. reflexivity.
Defined.

(* ===================================================================== *)
(** * The blocks of the report *)
(* ===================================================================== *)

Section Blocks.

Lemma seq_single (a b : Trace) : ([a] ;; [b]) = [a ++ b].
Proof. reflexivity. Qed.

Lemma for_each_ext {A} (f g : A -> Beh) l :
  (forall x, f x = g x) -> for_each f l = for_each g l.
Proof.
  intros H. induction l as [|x l IH]; [reflexivity |].
  cbn [for_each foldr]. fold (for_each f l). fold (for_each g l).
  by rewrite H, IH.
Qed.

(** A loop whose body writes one fixed trace per element. *)
Lemma for_each_single {A} (g : A -> Trace) l :
  for_each (fun x => [g x]) l = [flat_map g l].
Proof.
  induction l as [|x l IH]; [reflexivity |].
  cbn [for_each foldr flat_map]. fold (for_each (fun x => [g x]) l).
  rewrite IH. apply seq_single.
Qed.

Lemma for_each_emit {A} (g : A -> Out) l :
  for_each (fun x => emit (g x)) l = [map g l].
Proof.
  unfold emit. rewrite (for_each_single (fun x => [g x])).
  f_equal.
Qed.

Lemma printStrSliceMap_body kvs :
  for_each (fun kv : string * list string =>
              for_each (fun value => emit (map_line kv.1 value)) kv.2) kvs
  = [pair_lines kvs].
Proof.
  unfold pair_lines. rewrite <- for_each_single. apply for_each_ext.
  intros kv. apply for_each_emit.
Qed.

Lemma elem_of_printStrSliceMap m t :
  t ∈ printStrSliceMap m
  <-> exists kvs, kvs ≡ₚ map_to_list m /\ t = pair_lines kvs.
Proof.
  unfold printStrSliceMap. rewrite list_elem_of_bind. split.
  - intros (kvs & Ht & Hk). exists kvs. apply elem_of_range in Hk.
    rewrite printStrSliceMap_body in Ht. apply list_elem_of_singleton in Ht. auto.
  - intros (kvs & Hk & ->). exists kvs. rewrite printStrSliceMap_body.
    split; [by apply list_elem_of_singleton | by apply elem_of_range].
Qed.

Lemma pair_lines_app l1 l2 : pair_lines (l1 ++ l2) = pair_lines l1 ++ pair_lines l2.
Proof. unfold pair_lines. apply flat_map_app. Qed.

Lemma logged_app t1 t2 : logged (t1 ++ t2) = logged t1 ++ logged t2.
Proof. unfold logged. apply omap_app. Qed.

Lemma logged_map_stdout {A} (g : A -> string) l :
  logged (map (fun x => Stdout (g x)) l) = [].
Proof. induction l as [|x l IH]; [reflexivity | exact IH]. Qed.

Lemma logged_pair_lines kvs : logged (pair_lines kvs) = [].
Proof.
  induction kvs as [|[k vs] kvs IH]; [reflexivity |].
  change (pair_lines ((k, vs) :: kvs)) with (map (map_line k) vs ++ pair_lines kvs).
  rewrite logged_app, IH, app_nil_r. unfold map_line. apply logged_map_stdout.
Qed.

Lemma quiet_emit s : quiet (emit (Stdout s)).
Proof. by repeat constructor. Qed.

Lemma quiet_skip : quiet skip.
Proof. by repeat constructor. Qed.

Lemma quiet_seq a b : quiet a -> quiet b -> quiet (a ;; b).
Proof.
  unfold quiet. rewrite !Forall_forall. intros Ha Hb t Ht.
  apply elem_of_seq in Ht as (t1 & t2 & H1 & H2 & ->).
  by rewrite logged_app, (Ha _ H1), (Hb _ H2).
Qed.

Lemma quiet_for_each {A} (f : A -> Beh) l :
  (forall x, quiet (f x)) -> quiet (for_each f l).
Proof.
  intros Hf. induction l as [|x l IH]; cbn.
  - apply quiet_skip.
  - by apply quiet_seq.
Qed.

Lemma quiet_ranged {V} (m : gmap string V) (f : list (string * V) -> Beh) :
  (forall kvs, quiet (f kvs)) -> quiet (range m ≫= f).
Proof.
  intros Hf. unfold quiet. apply Forall_bind, Forall_forall. intros kvs _. apply Hf.
Qed.

End Blocks.

Create HintDb quiet.
#[local] Hint Resolve quiet_emit quiet_skip quiet_seq quiet_for_each quiet_ranged
  : quiet.

(** X11. [printStrSliceMap] writes one line per (key, value) pair: in every
    run its output is a rearrangement of the lines of all pairs, and the
    lines of one key stand together, in the order of the key's values;
    only the order of the keys is open. *)
Theorem printStrSliceMap_lines (m : Values) :
  live (printStrSliceMap m)
  /\ Forall
       (fun t =>
          t ≡ₚ pair_lines (map_to_list m)
          /\ forall key values,
              m !! key = Some values ->
              exists before after,
                t = before ++ map (map_line key) values ++ after)
       (printStrSliceMap m).
Proof.
  split; [apply live_printStrSliceMap |].
  apply Forall_forall. intros t Ht.
  apply elem_of_printStrSliceMap in Ht as (kvs & Hk & ->). split.
  - unfold pair_lines. by apply Permutation_flat_map.
  - intros key values Hm.
    assert (Hin : (key, values) ∈ kvs).
    { rewrite Hk. by apply elem_of_map_to_list. }
    apply list_elem_of_split in Hin as (l1 & l2 & ->).
    exists (pair_lines l1), (pair_lines l2).
    rewrite pair_lines_app. reflexivity.
Qed.

Section AuthBlock.

Lemma printStrMap_body (kvs : list (string * string)) :
  for_each (fun kv => emit (map_line kv.1 kv.2)) kvs
  = [map (fun kv => map_line kv.1 kv.2) kvs].
Proof. apply (for_each_emit (fun kv : string * string => map_line kv.1 kv.2)). Qed.

Lemma auth_entries (u p : string) :
  map_to_list (<["password" := p]> (<["username" := u]> (<["type" := "Basic"]>
                 (∅ : gmap string string))))
  ≡ₚ [("password", p); ("username", u); ("type", "Basic")].
Proof.
  rewrite map_to_list_insert by (by simplify_map_eq).
  rewrite map_to_list_insert by (by simplify_map_eq).
  rewrite map_to_list_insert by (by simplify_map_eq).
  by rewrite map_to_list_empty.
Qed.

End AuthBlock.

(** X12. With Basic credentials present, the Authorization block is its
    heading followed by the three lines for the type [Basic], the user
    name and the password in clear, in some order; without credentials the
    block is absent. *)
Theorem printAuth_lines (q : Request) :
  live (printAuth q)
  /\ (ok (BasicAuth q) = false -> printAuth q = skip)
  /\ (ok (BasicAuth q) = true ->
      Forall
        (fun t =>
           exists rest,
             t = Stdout ("Authorization:" +:+ strings.nl) :: rest
             /\ rest ≡ₚ [map_line "type" "Basic";
                         map_line "username" (username (BasicAuth q));
                         map_line "password" (password (BasicAuth q))])
        (printAuth q)).
Proof.
  split; [| split].
  - unfold printAuth, Println. destruct (ok (BasicAuth q)); [| apply live_skip].
    apply live_seq; [apply live_emit | apply live_printStrMap].
  - unfold printAuth. by intros ->.
  - unfold printAuth. intros ->. apply Forall_forall. intros t Ht.
    apply elem_of_seq in Ht as (t1 & t2 & H1 & H2 & ->).
    apply elem_of_emit in H1 as ->. exists t2. split; [reflexivity |].
    unfold printStrMap in H2. apply list_elem_of_bind in H2 as (kvs & H2 & Hk).
    rewrite printStrMap_body in H2. apply list_elem_of_singleton in H2 as ->.
    apply elem_of_range in Hk. rewrite Hk, auth_entries.
    exact (Permutation_rev [map_line "password" (password (BasicAuth q));
                            map_line "username" (username (BasicAuth q));
                            map_line "type" "Basic"]).
Qed.

Section Logs.
Context {L : StdLib}.
Variable Cfg : Config.

Lemma quiet_printStrMap m : quiet (printStrMap m).
Proof.
  unfold printStrMap, map_line. apply quiet_ranged. intros kvs.
  apply quiet_for_each. intros kv. apply quiet_emit.
Qed.

Lemma quiet_printStrSliceMap m : quiet (printStrSliceMap m).
Proof.
  unfold printStrSliceMap, map_line. apply quiet_ranged. intros kvs.
  apply quiet_for_each. intros kv. apply quiet_for_each. intros v.
  apply quiet_emit.
Qed.

Lemma quiet_printAuth q : quiet (printAuth q).
Proof.
  pose proof quiet_printStrMap.
  unfold printAuth, Println. destruct (ok _); auto with quiet.
Qed.

Lemma quiet_printHeaders q : quiet (printHeaders q).
Proof.
  pose proof quiet_printStrSliceMap.
  unfold printHeaders, Println. destruct (_ <? _); auto with quiet.
Qed.

Lemma quiet_printQueryParams q : quiet (printQueryParams q).
Proof.
  pose proof quiet_printStrSliceMap.
  unfold printQueryParams, Println. destruct (_ <? _); auto with quiet.
Qed.

Lemma quiet_printFilePart v : quiet (printFilePart v).
Proof.
  unfold printFilePart, Println. apply quiet_seq; [apply quiet_emit |].
  destruct (negb _); [| apply quiet_skip].
  apply quiet_seq; [apply quiet_emit |].
  apply quiet_ranged. intros kvs. apply quiet_for_each. intros kv. apply quiet_emit.
Qed.

Lemma quiet_printFiles files : quiet (printFiles files).
Proof.
  unfold printFiles. apply quiet_ranged. intros kvs. apply quiet_for_each.
  intros kv. apply quiet_seq; [apply quiet_emit |].
  apply quiet_for_each, quiet_printFilePart.
Qed.

(** The body block logs nothing, or the one message of a failed
    indentation. *)
Lemma printBody_logged q :
  Forall (fun t =>
            logged t = []
            \/ exists err,
                logged t = ["error indenting json body: " +:+ err +:+ strings.nl])
         (printBody Cfg q).
Proof.
  assert (Hq : forall B, quiet B ->
                 Forall (fun t => logged t = [] \/ exists err,
                           logged t = ["error indenting json body: " +:+ err
                                       +:+ strings.nl]) B).
  { intros B HB. eapply Forall_impl; [exact HB |]. cbn. auto. }
  pose proof quiet_printStrSliceMap. pose proof quiet_printFiles.
  unfold printBody, printBytes, Println, printJsonIndented.
  destruct (_ =? 0); [apply Hq; auto with quiet |].
  destruct (BodyIsString q); [| repeat case_match; apply Hq; auto 8 with quiet].
  destruct (strings.Contains _ _); [| apply Hq; auto with quiet].
  destruct (json_Valid (Body q)); [| apply Hq; auto with quiet].
  destruct (ShouldFormatJson Cfg); [| apply Hq; auto with quiet].
  cbn [negb]. destruct (json_Indent _ _ _) as [s | err].
  - apply Hq. apply quiet_seq; [apply quiet_emit |].
    apply quiet_seq; [| apply quiet_skip]. by repeat constructor.
  - unfold emit. rewrite !seq_single. apply Forall_singleton.
    right. exists err. reflexivity.
Qed.

End Logs.

(** X13. A render logs the summary line, and after it at most the message
    of a failed JSON indentation; everything else goes to standard output.
    The parse error recorded on the snapshot is neither logged nor
    printed: the render is the same without it. *)
Theorem Print_logs (L : StdLib) (Cfg : Config) (q : Request) :
  live (Print Cfg q)
  /\ Forall
       (fun t =>
          logged t = [summary q]
          \/ exists err,
              logged t = [summary q;
                          "error indenting json body: " +:+ err +:+ strings.nl])
       (Print Cfg q)
  /\ forall err length,
      Print Cfg
        {| Method := Method q; Path := Path q; RequestUri := RequestUri q;
           Protocol := Protocol q; Host := Host q;
           RemoteAddress := RemoteAddress q; ContentLength := length;
           ContentType := ContentType q; Headers := Headers q;
           QueryParams := QueryParams q; BasicAuth := BasicAuth q;
           BodyIsString := BodyIsString q; BodyParseError := err;
           Body := Body q; BodyFormValues := BodyFormValues q;
           BodyMultipartFormValues := BodyMultipartFormValues q |}
      = Print Cfg q.
Proof.
  split; [apply live_Print |]. split; [| reflexivity].
  apply Forall_forall. intros t Ht. unfold Print in Ht.
  apply elem_of_seq in Ht as (t0 & t1 & H0 & Ht & ->).
  apply elem_of_emit in H0 as ->.
  apply elem_of_seq in Ht as (tu & t2 & Hu & Ht & ->).
  apply elem_of_seq in Ht as (th & t3 & Hh & Ht & ->).
  apply elem_of_seq in Ht as (tr & t4 & Hr & Ht & ->).
  apply elem_of_seq in Ht as (ta & t5 & Ha & Ht & ->).
  apply elem_of_seq in Ht as (te & t6 & He & Ht & ->).
  apply elem_of_seq in Ht as (tq & t7 & Hq & Ht & ->).
  apply elem_of_seq in Ht as (tb & t8 & Hb & Hd & ->).
  apply elem_of_emit in Hh as ->. apply elem_of_emit in Hr as ->.
  apply elem_of_emit in Hd as ->.
  assert (Eu : logged tu = []).
  { destruct (negb _); [apply elem_of_emit in Hu as -> | apply elem_of_skip in Hu as ->];
      reflexivity. }
  pose proof (proj1 (Forall_forall _ _) (quiet_printAuth q) _ Ha) as Ea.
  pose proof (proj1 (Forall_forall _ _) (quiet_printHeaders q) _ He) as Ee.
  pose proof (proj1 (Forall_forall _ _) (quiet_printQueryParams q) _ Hq) as Eq.
  pose proof (proj1 (Forall_forall _ _) (printBody_logged Cfg q) _ Hb) as Eb.
  cbn in Ea, Ee, Eq.
  change (logged ([Logged (summary q)] ++ tu ++ [Stdout ("Host:" +:+ " " +:+ Host q +:+ strings.nl)]
                  ++ [Stdout ("Remote Address:" +:+ " " +:+ RemoteAddress q +:+ strings.nl)]
                  ++ ta ++ te ++ tq ++ tb ++ [Stdout (delimiter +:+ strings.nl)])
          = [summary q]
          \/ exists err,
              logged ([Logged (summary q)] ++ tu
                      ++ [Stdout ("Host:" +:+ " " +:+ Host q +:+ strings.nl)]
                      ++ [Stdout ("Remote Address:" +:+ " " +:+ RemoteAddress q +:+ strings.nl)]
                      ++ ta ++ te ++ tq ++ tb ++ [Stdout (delimiter +:+ strings.nl)])
              = [summary q;
                 "error indenting json body: " +:+ err +:+ strings.nl]).
  rewrite !logged_app, Eu, Ea, Ee, Eq. cbn.
  destruct Eb as [-> | [err ->]]; [left | right; exists err]; reflexivity.
Qed.

(** X14. Every render has the same frame: the summary line on the logger
    first, then at most one line before the Host line, the Remote-Address
    line right after the Host line, and the delimiter of 25 hyphens as the
    last line. *)
Theorem Print_frame (L : StdLib) (Cfg : Config) (q : Request) :
  live (Print Cfg q)
  /\ Forall
       (fun t =>
          exists uri blocks,
            t = [Logged (summary q)] ++ uri
                ++ [Stdout ("Host: " +:+ Host q +:+ strings.nl);
                    Stdout ("Remote Address: " +:+ RemoteAddress q +:+ strings.nl)]
                ++ blocks
                ++ [Stdout ("-------------------------" +:+ strings.nl)]
            /\ (length uri <= 1)%nat)
       (Print Cfg q).
Proof.
  split; [apply live_Print |].
  apply Forall_forall. intros t Ht. unfold Print in Ht.
  apply elem_of_seq in Ht as (t0 & t1 & H0 & Ht & ->).
  apply elem_of_emit in H0 as ->.
  apply elem_of_seq in Ht as (tu & t2 & Hu & Ht & ->).
  apply elem_of_seq in Ht as (th & t3 & Hh & Ht & ->).
  apply elem_of_seq in Ht as (tr & t4 & Hr & Ht & ->).
  apply elem_of_seq in Ht as (ta & t5 & Ha & Ht & ->).
  apply elem_of_seq in Ht as (te & t6 & He & Ht & ->).
  apply elem_of_seq in Ht as (tq & t7 & Hq & Ht & ->).
  apply elem_of_seq in Ht as (tb & t8 & Hb & Hd & ->).
  apply elem_of_emit in Hh as ->. apply elem_of_emit in Hr as ->.
  apply elem_of_emit in Hd as ->.
  exists tu, (ta ++ te ++ tq ++ tb). split.
  - cbn. rewrite <- !app_assoc. reflexivity.
  - destruct (negb _); [apply elem_of_emit in Hu as -> | apply elem_of_skip in Hu as ->];
      cbn; lia.
Qed.

(* ===================================================================== *)
(** * The Request-URI line *)
(* ===================================================================== *)

Section RequestUriLine.









End RequestUriLine.



(** X15. A valid JSON body of a [json] content type, with formatting on,
    is printed once: under its heading comes the text [json.Indent] made
    of it with the empty prefix and an indent of two spaces, or, should the
    indentation fail, the error on the logger and the bytes as they
    are. *)
Theorem printBody_valid_json_formatted (L : StdLib) (Cfg : Config) (q : Request) :
  BodyIsString q = true ->
  Body q <> [] ->
  strings.Contains (ContentType q) "json" = true ->
  json_Valid (Body q) = true ->
  ShouldFormatJson Cfg = true ->
  printBody Cfg q
  = match json_Indent (Body q) "" "  " with
    | inl text =>
        [[Stdout ("Body (valid json):" +:+ strings.nl);
          Stdout (text +:+ strings.nl)]]
    | inr err =>
        [[Stdout ("Body (valid json):" +:+ strings.nl);
          Logged ("error indenting json body: " +:+ err +:+ strings.nl);
          Stdout (string_of_list_byte (Body q) +:+ strings.nl)]]
    end.
Proof.
  intros Hs Hb Hc Hv Hf. unfold printBody, printJsonIndented.
  rewrite (length_nonzero _ Hb), Hs, Hc, Hv, Hf. cbn [negb].
  destruct (json_Indent (Body q) "" "  "); reflexivity.
Qed.

Lemma printBody_valid_json_formatted_witness :
  Body (Examples.snapshot Examples.post_json)
  = list_byte_of_string Examples.json_text
  /\ printBody Examples.cfg (Examples.snapshot Examples.post_json)
     = [[Stdout ("Body (valid json):" +:+ strings.nl);
         Stdout ("{" +:+ strings.nl
                 +:+ "  " +:+ strings.quote +:+ "a" +:+ strings.quote +:+ ": ["
                 +:+ strings.nl
                 +:+ "    1," +:+ strings.nl
                 +:+ "    2" +:+ strings.nl
                 +:+ "  ]" +:+ strings.nl
                 +:+ "}" +:+ strings.nl)]].
Proof.
  split; [vm_compute; reflexivity |].
  rewrite (printBody_valid_json_formatted RefLib Examples.cfg
             (Examples.snapshot Examples.post_json)).
  - vm_compute. reflexivity.
  - vm_compute. reflexivity.
  - vm_compute. discriminate.
  - vm_compute. reflexivity.
  - vm_compute. reflexivity.
  - reflexivity.
Defined.

(* ===================================================================== *)
(** * Sizes *)
(* ===================================================================== *)

(** X16. The in-memory limit handed to the multipart parser,
    [int64(MaxFormBodySizeInMB) << 20], is the configured number of
    mebibytes in bytes exactly for sizes from -2^43 up to, not including,
    2^43; from there on the shift leaves the 64-bit range and wraps. *)
Theorem shl20_int64_exact (x : Z) :
  shl20_int64 x = x * 1048576 <-> - 2 ^ 43 <= x < 2 ^ 43.
Proof.
  unfold shl20_int64. rewrite Z.shiftl_mul_pow2 by lia.
  change (2 ^ 20) with 1048576.
  pose proof (Z.mod_pos_bound (x * 1048576 + 2 ^ 63) (2 ^ 64) ltac:(lia)) as Hm.
  split.
  - intros H. lia.
  - intros H. rewrite Z.mod_small by lia. lia.
Qed.

Lemma float64_of_int_exact (n : Z) : 0 <= n < 2 ^ 53 -> fmt.float64_of_int n = n.
Proof.
  intros H. unfold fmt.float64_of_int.
  assert (Hl : Z.log2 (Z.abs n) - 52 <= 0).
  { rewrite Z.abs_eq by lia. destruct (Z.eq_dec n 0) as [-> | Hn]; [cbn; lia |].
    assert (Z.log2 n < 53) by (apply Z.log2_lt_pow2; lia). lia. }
  apply Z.leb_le in Hl. by rewrite Hl.
Qed.

Lemma f2_MB_whole (k : Z) :
  0 <= k -> fmt.f2_MB (k * 1048576) = fmt.d k +:+ ".00".
Proof.
  intros Hk. unfold fmt.f2_MB.
  rewrite Z.abs_eq by lia.
  replace (k * 1048576 * 100) with (k * 100 * 1048576) by lia.
  rewrite Z.div_mul, Z.mod_mul by lia. cbn [Z.ltb Z.eqb Z.compare orb andb].
  rewrite Z.div_mul, Z.mod_mul by lia.
  assert (E : (k * 1048576 <? 0) = false) by (apply Z.ltb_ge; lia).
  rewrite E. reflexivity.
Qed.

(** X17. A file part of a whole number [k] of mebibytes (a size below
    2^53 bytes) and no header of its own is reported on one line, its name
    followed by [(k.00 MB)]. *)
Theorem printFilePart_whole_MB (filename : string) (k : Z) :
  0 <= k < 2 ^ 33 ->
  printFilePart {| multipart.Filename := filename; multipart.Header := ∅;
                   multipart.Size := k * 1048576 |}
  = [[file_line filename (fmt.d k +:+ ".00")]].
Proof.
  intros Hk. unfold printFilePart, file_line.
  cbn [multipart.Filename multipart.Header multipart.Size].
  rewrite float64_of_int_exact by lia. rewrite f2_MB_whole by lia.
  rewrite map_size_empty. reflexivity.
Qed.

Lemma printFilePart_whole_MB_witness :
  printFilePart {| multipart.Filename := "upload.bin"; multipart.Header := ∅;
                   multipart.Size := 3145728 |}
  = [[file_line "upload.bin" "3.00"]].
Proof. apply (printFilePart_whole_MB "upload.bin" 3). lia. Defined.

(** X18. A file part is reported by its file line and, when it has header
    fields, the heading [Headers:] and one line per field name, holding
    the values of that name between brackets, the names in some order. *)
Theorem printFilePart_lines (value : multipart.FileHeader) :
  live (printFilePart value)
  /\ Forall
       (fun t =>
          exists fields,
            fields ≡ₚ map_to_list (multipart.Header value)
            /\ t = file_line (multipart.Filename value)
                     (fmt.f2_MB (fmt.float64_of_int (multipart.Size value)))
                   :: match fields with
                      | [] => []
                      | _ => Stdout (strings.tab +:+ strings.tab +:+ "Headers:"
                                     +:+ strings.nl)
                             :: map (fun kv => part_header_line kv.2) fields
                      end)
       (printFilePart value).
Proof.
  split; [apply live_printFilePart |].
  apply Forall_forall. intros t Ht. unfold printFilePart, Println in Ht.
  apply elem_of_seq in Ht as (t1 & t2 & H1 & H2 & ->).
  apply elem_of_emit in H1 as ->.
  rewrite <- length_map_to_list in H2.
  destruct (map_to_list (multipart.Header value)) as [|kv l] eqn:E.
  - cbn in H2. apply elem_of_skip in H2 as ->. exists []. split; reflexivity.
  - cbn [length negb Z.of_nat Z.eqb] in H2.
    apply elem_of_seq in H2 as (t3 & t4 & H3 & H4 & ->).
    apply elem_of_emit in H3 as ->.
    apply list_elem_of_bind in H4 as (fields & H4 & Hf).
    apply elem_of_range in Hf. rewrite E in Hf.
    rewrite (for_each_emit (fun kv : string * list string =>
                              Stdout (strings.tab +:+ strings.tab +:+ strings.tab
                                      +:+ fmt.s_slice kv.2 +:+ strings.nl))) in H4.
    apply list_elem_of_singleton in H4 as ->.
    exists fields. split; [exact Hf |].
    destruct fields as [|f fs]; [by apply Permutation_nil_cons in Hf |].
    reflexivity.
Qed.

(* ===================================================================== *)
(** * The body block of every request *)
(* ===================================================================== *)

(** X19. Whatever the request and the parsers, the body block of the
    report is empty or opens with one of the three headings of the raw
    branch, and it is the block of the snapshot without its form fields:
    the form, multipart and unknown-body branches of [printBody] are never
    taken after [NewRequest]. *)
Theorem snapshot_body_block (L : StdLib) (Cfg : Config) (r : http.Request)
        (q : Request) (e : option string) (t : Trace) :
  NewRequest Cfg r = (Some q, e, t) ->
  printBody Cfg q = printBody Cfg (without_forms q)
  /\ (printBody Cfg q = skip
      \/ Forall (fun t => exists h rest, t = h :: rest /\ h ∈ raw_headings)
                (printBody Cfg q)).
Proof.
  intros H. split; [by apply (snapshot_printBody_ignores_forms Cfg r q e t) |].
  destruct (Body q) as [|b bs] eqn:Eb.
  - left. by apply printBody_empty.
  - right. apply printBody_raw_heading; [| congruence].
    destruct (BodyIsString q) eqn:Es; [reflexivity |].
    rewrite (NewRequest_Body_binary Cfg r q e t H Es) in Eb. discriminate.
Qed.

Lemma snapshot_body_block_witness :
  printBody Examples.cfg (Examples.snapshot Examples.delete_form)
  = printBody Examples.cfg (without_forms (Examples.snapshot Examples.delete_form))
  /\ (printBody Examples.cfg (Examples.snapshot Examples.delete_form) = skip
      \/ Forall (fun t => exists h rest, t = h :: rest /\ h ∈ raw_headings)
                (printBody Examples.cfg (Examples.snapshot Examples.delete_form))).
Proof.
  apply (snapshot_body_block RefLib Examples.cfg Examples.delete_form
           (Examples.snapshot Examples.delete_form) None []).
  vm_compute. reflexivity.
Defined.

(* ===================================================================== *)
(** * The handler as a whole *)
(* ===================================================================== *)

(** X20. The handler writes what [NewRequest] logged, then one render of
    the snapshot, and then sends 202 on a writer that no status was written
    to before: the branch that would send 500, and with it the message of a
    superfluous [WriteHeader], is never reached. *)
Theorem handler_report (L : StdLib) (Cfg : Config) (r : http.Request)
        (q : Request) (e : option string) (t0 : Trace) :
  NewRequest Cfg r = (Some q, e, t0) ->
  handler Cfg fresh_writer r
  = (fun tp => (t0 ++ tp, {| status := Some http.StatusAccepted |}))
      <$> Print Cfg q.
Proof.
  intros H.
  destruct (NewRequest_returns Cfg r) as (q' & t' & E).
  rewrite E in H. injection H as -> <- ->.
  unfold handler. rewrite E. generalize (Print Cfg q). intros B. cbn.
  induction B as [|tp B IH]; [reflexivity |].
  cbn. rewrite app_nil_r. f_equal. exact IH.
Qed.

Lemma handler_report_witness :
  NewRequest Examples.cfg Cases.text_ok
  = (Some (Examples.snapshot Cases.text_ok), None, [])
  /\ handler Examples.cfg fresh_writer Cases.text_ok
     = (fun tp => (tp, {| status := Some 202 |}))
         <$> Print Examples.cfg (Examples.snapshot Cases.text_ok).
Proof.
  split; [vm_compute; reflexivity |].
  apply (handler_report RefLib Examples.cfg Cases.text_ok
           (Examples.snapshot Cases.text_ok) None []).
  vm_compute. reflexivity.
Defined.
